(** * rsl_rl/utils/wandb_utils.py: the Weights-and-Biases summary writer

    A shallow embedding of [WandbSummaryWriter] and the properties its
    specification states about it.

    The writer is glue code: every method forwards to one of two
    collaborators, the base [SummaryWriter] (local storage) and the [wandb]
    client (remote session).  The embedding therefore makes the collaborators
    explicit: every call to one of them is appended to a trace, and an oracle
    decides, from the calls made so far and the call at hand, whether that
    call raises.  The writer's only own attribute, [self.video_files], is the
    other half of the state.  Python statements become computations in a
    state-and-exception monad; an exception leaves the state as it was when
    it was raised, as in Python. *)

From Stdlib Require Import ZArith Ascii String List Bool.
From Stdlib Require Import Floats.SpecFloat.
From stdpp Require Import base gmap strings list.

Local Set Warnings "-register-all".
Local Open Scope Z_scope.

(** ** Python values *)

(** The data that travels through the writer: configuration trees, scalars,
    and the video objects built by [wandb.Video]. A [dict] with string keys
    is a finite map, which gives Python's order-insensitive dict equality. *)
Inductive value : Type :=
| VNone
| VBool (b : bool)
| VInt (z : Z)
| VFloat (f : spec_float)
| VStr (s : string)
| VList (l : list value)
| VDict (d : gmap string value)
| VVideo (path : string) (fps : Z) (format : string).

(** ** Exceptions *)

(** The exception classes the module can meet.  [except Exception] does not
    catch an exception that derives from [BaseException] only
    ([KeyboardInterrupt], [SystemExit]); these are [NonException]. *)
Inductive exn : Type :=
| KeyError (arg : string)
| AttributeError (msg : string)
| TypeError (msg : string)
| OtherException (cls msg : string)
| NonException (cls : string).

Definition is_Exception (e : exn) : bool :=
  match e with
  | NonException _ => false
  | _ => true
  end.

Definition is_KeyError (e : exn) : bool :=
  match e with
  | KeyError _ => true
  | _ => false
  end.

Inductive result (A : Type) : Type :=
| Return (a : A)
| Raise (e : exn).
Arguments Return {A} a.
Arguments Raise {A} e.

(** [d[k]] on a dict. *)
Definition subscript (d : gmap string value) (k : string) : result value :=
  match d !! k with
  | Some v => Return v
  | None => Raise (KeyError k)
  end.

(** ** Objects passed as [env_cfg] *)

(** [env_cfg : dict | object] is used through two capabilities only: its
    [to_dict] attribute (absent, or a method whose call returns or raises) and
    whether it is a dataclass instance (then [asdict] returns its fields).  A
    plain dict has neither. *)
Record pyobject : Type := {
  to_dict : option (result value);
  dataclass_fields : option (gmap string value)
}.

(** [env_cfg.to_dict()]. *)
Definition call_to_dict (o : pyobject) : result value :=
  match to_dict o with
  | Some r => r
  | None => Raise (AttributeError "object has no attribute 'to_dict'")
  end.

(** [dataclasses.asdict(env_cfg)]. *)
Definition asdict (o : pyobject) : result value :=
  match dataclass_fields o with
  | Some d => Return (VDict d)
  | None => Raise (TypeError "asdict() should be called on dataclass instances")
  end.

(** ** Strings and paths *)

(** [s.endswith(suffix)]. *)
Definition endswith (s suffix : string) : bool :=
  let n := String.length s in
  let k := String.length suffix in
  (k <=? n)%nat && String.eqb (substring (n - k) k s) suffix.

(** The functions of [os.path] the writer calls, as [posixpath] defines
    them. *)
Module os.
Module path.

Definition sep : Ascii.ascii := "/"%char.

(** [(p[:i], p[i:])] where [i = p.rfind('/') + 1]. *)
Fixpoint cut (p : string) : string * string :=
  match p with
  | EmptyString => (EmptyString, EmptyString)
  | String c r =>
      let '(h, t) := cut r in
      match h with
      | String _ _ => (String c h, t)
      | EmptyString =>
          if Ascii.eqb c sep then (String c EmptyString, r)
          else (EmptyString, String c t)
      end
  end.

(** [s.rstrip('/')]. *)
Fixpoint rstrip (s : string) : string :=
  match s with
  | EmptyString => EmptyString
  | String c r =>
      match rstrip r with
      | EmptyString => if Ascii.eqb c sep then EmptyString else String c EmptyString
      | r' => String c r'
      end
  end.

(** The head is stripped of trailing separators unless it consists of
    separators only. *)
Definition strip_head (head : string) : string :=
  match rstrip head with
  | EmptyString => head
  | h => h
  end.

Definition split (p : string) : string * string :=
  let '(head, tail) := cut p in (strip_head head, tail).

Definition dirname (p : string) : string :=
  strip_head (fst (cut p)).

Definition join (a b : string) : string :=
  if String.prefix "/" b then b
  else if (String.eqb a EmptyString || endswith a "/")%bool then a ++ b
  else a ++ "/" ++ b.

End path.
End os.

(** What [os.path.exists] and [os.walk] report about the file system at the
    time of a call.  [os.walk] yields [(root, dirs, files)] triples and
    ignores errors of the underlying scan. *)
Record filesystem : Type := {
  exists_ : string -> bool;
  walk : string -> list (string * list string * list string)
}.

(** ** Collaborators *)

(** The calls the writer makes to the base class and to the [wandb] client. *)
Inductive call : Type :=
| SummaryWriter_init (log_dir : string) (flush_secs : Z)
| SummaryWriter_add_scalar (tag : string) (scalar_value : value)
    (global_step : option Z) (walltime : option spec_float) (new_style : bool)
| wandb_init (project entity : value) (name : string)
| wandb_config_update (d : gmap string value)
| wandb_log (d : gmap string value) (step : option Z)
| wandb_finish
| wandb_save (glob_str base_path : string)
| wandb_Video (data_or_path : string) (fps : Z) (format : string).

(** The behaviour of the collaborators: given the calls made so far, does
    this call raise?  *)
Definition oracle : Type := list call -> call -> option exn.

(** A collaborator that never raises. *)
Definition reliable : oracle := fun _ _ => None.

(** ** State and monad *)

Record state : Type := {
  video_files : list string;
  trace : list call
}.

Definition M (A : Type) : Type := state -> result A * state.

#[global] Instance M_ret : MRet M := fun A a st => (Return a, st).

#[global] Instance M_bind : MBind M := fun A B f m st =>
  match m st with
  | (Return a, st') => f a st'
  | (Raise e, st') => (Raise e, st')
  end.

Definition raise {A : Type} (e : exn) : M A := fun st => (Raise e, st).

Definition lift {A : Type} (r : result A) : M A := fun st => (r, st).

(** [try: body / except <class>: handler]. *)
Definition try_except {A : Type} (body : M A) (catches : exn -> bool)
    (handler : M A) : M A := fun st =>
  match body st with
  | (Raise e, st') => if catches e then handler st' else (Raise e, st')
  | r => r
  end.

(** [for x in l: body x]. *)
Fixpoint for_each {A : Type} (l : list A) (body : A -> M unit) : M unit :=
  match l with
  | [] => mret tt
  | x :: l' => body x;; for_each l' body
  end.

Definition get_video_files : M (list string) := fun st =>
  (Return (video_files st), st).

Definition set_video_files (l : list string) : M unit := fun st =>
  (Return tt, {| video_files := l; trace := trace st |}).

(** [self.video_files.append(x)]. *)
Definition video_files_append (x : string) : M unit := fun st =>
  (Return tt, {| video_files := video_files st ++ [x]; trace := trace st |}).

(** ** The writer *)

Module WandbSummaryWriter.
Section Methods.

Variable collaborators : oracle.

(** A call to a collaborator: it is recorded, then returns or raises. *)
Definition invoke (c : call) : M unit := fun st =>
  let st' := {| video_files := video_files st; trace := trace st ++ [c] |} in
  match collaborators (trace st) c with
  | Some e => (Raise e, st')
  | None => (Return tt, st')
  end.

Definition new_Video (video_path : string) (fps : Z) (format : string) : M value :=
  invoke (wandb_Video video_path fps format);;
  mret (VVideo video_path fps format).

Definition __init__ (log_dir : string) (flush_secs : Z)
    (cfg : gmap string value) : M unit :=
  invoke (SummaryWriter_init log_dir flush_secs);;
  let run_name := snd (os.path.split log_dir) in
  project ← try_except (lift (subscript cfg "wandb_project")) is_KeyError
    (raise (KeyError
       "Please specify wandb_project in the runner config, e.g. legged_gym."));
  entity ← try_except (lift (subscript cfg "wandb_entity")) is_KeyError
    (mret VNone);
  invoke (wandb_init project entity run_name);;
  invoke (wandb_config_update {[ "log_dir" := VStr log_dir ]});;
  set_video_files [].

Definition store_config (env_cfg : pyobject) (train_cfg : gmap string value)
    : M unit :=
  invoke (wandb_config_update {[ "runner_cfg" := VDict train_cfg ]});;
  policy ← lift (subscript train_cfg "policy");
  invoke (wandb_config_update {[ "policy_cfg" := policy ]});;
  algorithm ← lift (subscript train_cfg "algorithm");
  invoke (wandb_config_update {[ "alg_cfg" := algorithm ]});;
  try_except
    (d ← lift (call_to_dict env_cfg);
     invoke (wandb_config_update {[ "env_cfg" := d ]}))
    is_Exception
    (d ← lift (asdict env_cfg);
     invoke (wandb_config_update {[ "env_cfg" := d ]})).

Definition add_scalar (tag : string) (scalar_value : value)
    (global_step : option Z) (walltime : option spec_float)
    (new_style : bool) : M unit :=
  invoke (SummaryWriter_add_scalar tag scalar_value global_step walltime
            new_style);;
  invoke (wandb_log {[ tag := scalar_value ]} global_step).

Definition stop : M unit :=
  invoke wandb_finish.

Definition save_model (model_path : string) (it : Z) : M unit :=
  invoke (wandb_save model_path (os.path.dirname model_path)).

Definition save_file (path : string) : M unit :=
  invoke (wandb_save path (os.path.dirname path)).

Definition add_video_files (fs : filesystem) (log_dir : string) (step : Z)
    (fps : Z) : M unit :=
  if exists_ fs log_dir then
    for_each (walk fs log_dir) (fun '(root, dirs, files) =>
      for_each files (fun video_file =>
        registered ← get_video_files;
        if endswith video_file ".mp4"
           && negb (bool_decide (video_file ∈ registered))
        then
          video_files_append video_file;;
          let video_path := os.path.join root video_file in
          video ← new_Video video_path fps "mp4";
          invoke (wandb_log {[ "Video" := video ]} (Some step))
        else mret tt))
  else mret tt.

End Methods.
End WandbSummaryWriter.

(** ** Vocabulary of the statements *)

Import WandbSummaryWriter.

(** The state after the calls [l] have been made and nothing else changed. *)
Definition with_trace (st : state) (l : list call) : state :=
  {| video_files := video_files st; trace := trace st ++ l |}.

(** The calls made since the trace had length [n]. *)
Definition calls_since (n : nat) (st : state) : list call :=
  drop n (trace st).

(** The text of the error raised for a config without project. *)
Definition missing_project : string :=
  "Please specify wandb_project in the runner config, e.g. legged_gym.".

(** The four pushes of [store_config], for an [env_cfg] converted to [d]. *)
Definition config_pushes (train_cfg : gmap string value)
    (policy algorithm d : value) : list call :=
  [ wandb_config_update {[ "runner_cfg" := VDict train_cfg ]};
    wandb_config_update {[ "policy_cfg" := policy ]};
    wandb_config_update {[ "alg_cfg" := algorithm ]};
    wandb_config_update {[ "env_cfg" := d ]} ].

(** The keys pushed into the remote configuration by the calls [l]. *)
Definition pushed_keys (l : list call) : list string :=
  flat_map (fun c => match c with
                     | wandb_config_update d => elements (dom d)
                     | _ => []
                     end) l.

(** *** Video scan, as the specification words it *)

(** The files a scan of [log_dir] discovers, each with the directory it lies
    in, in the order of the walk; none when [log_dir] does not exist. *)
Definition found (fs : filesystem) (log_dir : string) : list (string * string) :=
  if exists_ fs log_dir
  then flat_map (fun '(root, dirs, files) => map (pair root) files)
         (walk fs log_dir)
  else [].

(** The discovered files to upload, given the registry: those with the video
    extension whose name is neither registered nor met earlier in the scan. *)
Fixpoint fresh (registered : list string) (l : list (string * string))
    : list (string * string) :=
  match l with
  | [] => []
  | (root, f) :: l' =>
      if endswith f ".mp4" && negb (bool_decide (f ∈ registered))
      then (root, f) :: fresh (registered ++ [f]) l'
      else fresh registered l'
  end.

(** The two client calls that upload one video. *)
Definition upload_calls (step fps : Z) (v : string * string) : list call :=
  let video_path := os.path.join v.1 v.2 in
  [ wandb_Video video_path fps "mp4";
    wandb_log {[ "Video" := VVideo video_path fps "mp4" ]} (Some step) ].

(** What [add_video_files] does with one discovered file [v], the pair of its
    directory and its name. *)
Definition visit (collaborators : oracle) (step fps : Z)
    (v : string * string) : M unit :=
  registered ← get_video_files;
  if endswith v.2 ".mp4" && negb (bool_decide (v.2 ∈ registered))
  then
    video_files_append v.2;;
    let video_path := os.path.join v.1 v.2 in
    video ← new_Video collaborators video_path fps "mp4";
    invoke collaborators (wandb_log {[ "Video" := video ]} (Some step))
  else mret tt.

(** *** Sequences of operations *)

(** A computation that leaves [self.video_files] as it found it. *)
Definition keeps_registry {A : Type} (m : M A) : Prop :=
  forall st, video_files (m st).2 = video_files st.

(** The operations of a constructed writer, with their arguments; a video
    scan comes with the file system it meets. *)
Inductive operation : Type :=
| StoreConfig (env_cfg : pyobject) (train_cfg : gmap string value)
| AddScalar (tag : string) (scalar_value : value) (global_step : option Z)
    (walltime : option spec_float) (new_style : bool)
| Stop
| SaveModel (model_path : string) (it : Z)
| SaveFile (path : string)
| AddVideoFiles (fs : filesystem) (log_dir : string) (step fps : Z).

Definition is_video_scan (op : operation) : bool :=
  match op with
  | AddVideoFiles _ _ _ _ => true
  | _ => false
  end.

Definition perform (collaborators : oracle) (op : operation) : M unit :=
  match op with
  | StoreConfig env_cfg train_cfg => store_config collaborators env_cfg train_cfg
  | AddScalar tag v step walltime new_style =>
      add_scalar collaborators tag v step walltime new_style
  | Stop => stop collaborators
  | SaveModel model_path it => save_model collaborators model_path it
  | SaveFile path => save_file collaborators path
  | AddVideoFiles fs log_dir step fps =>
      add_video_files collaborators fs log_dir step fps
  end.

(** The caller performs the operations one after the other, whether or not
    one of them raised. *)
Fixpoint perform_all (collaborators : oracle) (ops : list operation)
    (st : state) : state :=
  match ops with
  | [] => st
  | op :: ops' => perform_all collaborators ops' (perform collaborators op st).2
  end.

(** *** Concrete inputs *)

(** The state before the constructor runs. *)
Definition blank : state := {| video_files := []; trace := [] |}.

(** 1.5 as a binary float: 3 * 2^-1. *)
Definition one_and_a_half : spec_float := S754_finite false 3 (-1).

(** A runner config with a project and no entity. *)
Definition cfg_project_only : gmap string value :=
  {[ "wandb_project" := VStr "legged_gym" ]}.

(** A train config with both sub-configs. *)
Definition train_cfg_full : gmap string value :=
  {[ "policy" := VDict {[ "class_name" := VStr "ActorCritic" ]};
     "algorithm" := VDict {[ "class_name" := VStr "PPO" ]} ]}.

(** An env config with the [to_dict] method that is a dataclass too. *)
Definition env_cfg_both : pyobject :=
  {| to_dict := Some (Return (VDict {[ "num_envs" := VInt 4096 ]}));
     dataclass_fields := Some {[ "num_envs" := VInt 4096 ]} |}.

(** A plain dataclass: no [to_dict]. *)
Definition env_cfg_dataclass : pyobject :=
  {| to_dict := None;
     dataclass_fields := Some {[ "num_envs" := VInt 4096 ]} |}.

(** An object with the [to_dict] method that is not a dataclass. *)
Definition env_cfg_to_dict_only : pyobject :=
  {| to_dict := Some (Return (VDict {[ "num_envs" := VInt 4096 ]}));
     dataclass_fields := None |}.

(** A dataclass whose [to_dict] is interrupted from the keyboard. *)
Definition env_cfg_interrupted : pyobject :=
  {| to_dict := Some (Raise (NonException "KeyboardInterrupt"));
     dataclass_fields := Some {[ "num_envs" := VInt 4096 ]} |}.

(** A client whose first push of an [env_cfg] fragment fails, and which
    works before and after. *)
Definition fails_once : oracle := fun tr c =>
  match c with
  | wandb_config_update d =>
      if bool_decide (is_Some (d !! "env_cfg"))
         && forallb (fun c' => match c' with
                               | wandb_config_update d' =>
                                   negb (bool_decide (is_Some (d' !! "env_cfg")))
                               | _ => true
                               end) tr
      then Some (OtherException "CommError" "connection reset")
      else None
  | _ => None
  end.

(** A video directory with a sub-directory; both hold a file [a.mp4]. *)
Definition fs_videos : filesystem :=
  {| exists_ := fun p => String.eqb p "videos";
     walk := fun p =>
       if String.eqb p "videos"
       then [ ("videos", ["old"], ["a.mp4"; "notes.txt"]);
              ("videos/old", [], ["a.mp4"; "b.mp4"]) ]
       else [] |}.

(** A second directory, elsewhere, that holds another [a.mp4]. *)
Definition fs_elsewhere : filesystem :=
  {| exists_ := fun p => String.eqb p "other";
     walk := fun p =>
       if String.eqb p "other" then [ ("other", [], ["a.mp4"; "c.mp4"]) ]
       else [] |}.

(** ** Vocabulary of the further properties *)

(** The first three pushes of [store_config], which precede the conversion of
    the env config. *)
Definition train_pushes (train_cfg : gmap string value)
    (policy algorithm : value) : list call :=
  [ wandb_config_update {[ "runner_cfg" := VDict train_cfg ]};
    wandb_config_update {[ "policy_cfg" := policy ]};
    wandb_config_update {[ "alg_cfg" := algorithm ]} ].

(** The push of an env config converted to [d]. *)
Definition env_push (d : value) : call :=
  wandb_config_update {[ "env_cfg" := d ]}.

(** The collaborators accept the calls [l], made one after the other from
    the state [st]. *)
Fixpoint accepted (collaborators : oracle) (tr : list call) (l : list call)
    : Prop :=
  match l with
  | [] => True
  | c :: l' =>
      collaborators tr c = None /\ accepted collaborators (tr ++ [c]) l'
  end.

(** A computation that makes at most [n] calls to the collaborators, all of
    which satisfy [P]. *)
Definition makes {A : Type} (P : call -> Prop) (n : nat) (m : M A) : Prop :=
  forall st, exists l,
    trace (m st).2 = trace st ++ l /\ (length l <= n)%nat /\ Forall P l.

(** The calls an operation may make. *)
Definition forwards_to (op : operation) (c : call) : Prop :=
  match op, c with
  | StoreConfig _ _, wandb_config_update _ => True
  | AddScalar tag v step walltime new_style, SummaryWriter_add_scalar _ _ _ _ _ =>
      c = SummaryWriter_add_scalar tag v step walltime new_style
  | AddScalar tag v step _ _, wandb_log _ _ => c = wandb_log {[ tag := v ]} step
  | Stop, wandb_finish => True
  | SaveModel p _, wandb_save _ _ => c = wandb_save p (os.path.dirname p)
  | SaveFile p, wandb_save _ _ => c = wandb_save p (os.path.dirname p)
  | AddVideoFiles _ _ _ fps, wandb_Video _ fps' format =>
      fps' = fps /\ format = "mp4"
  | AddVideoFiles _ _ step _, wandb_log _ step' => step' = Some step
  | _, _ => False
  end.

(** How many calls an operation makes at most. *)
Definition call_bound (op : operation) : nat :=
  match op with
  | StoreConfig _ _ => 5
  | AddScalar _ _ _ _ _ => 2
  | Stop | SaveModel _ _ | SaveFile _ => 1
  | AddVideoFiles fs log_dir _ _ =>
      2 * length (filter (fun v => endswith v.2 ".mp4" = true) (found fs log_dir))
  end.

(** [os.path.sep in s]. *)
Fixpoint has_sep (s : string) : bool :=
  match s with
  | EmptyString => false
  | String c r => Ascii.eqb c os.path.sep || has_sep r
  end.

(** The paths of the video objects built by the calls [l]. *)
Definition video_paths (l : list call) : list string :=
  flat_map (fun c => match c with
                     | wandb_Video p _ _ => [p]
                     | _ => []
                     end) l.

(** *** Further concrete inputs *)

(** A train config with a policy and no algorithm. *)
Definition train_cfg_policy_only : gmap string value :=
  {[ "policy" := VDict {[ "class_name" := VStr "ActorCritic" ]} ]}.

(** A plain dict as env config: no [to_dict], no dataclass. *)
Definition env_cfg_plain_dict : pyobject :=
  {| to_dict := None; dataclass_fields := None |}.

(** A runner config with project and entity, and a key the writer does not
    read. *)
Definition cfg_with_entity : gmap string value :=
  {[ "wandb_project" := VStr "legged_gym";
     "wandb_entity" := VStr "rsl";
     "max_iterations" := VInt 1500 ]}.

(** A client that raises [e] on every config push that holds [key]. *)
Definition raises_on (key : string) (e : exn) : oracle := fun tr c =>
  match c with
  | wandb_config_update d =>
      if bool_decide (is_Some (d !! key)) then Some e else None
  | _ => None
  end.

(** A client that refuses to open a session. *)
Definition session_refused : oracle := fun tr c =>
  match c with
  | wandb_init _ _ _ => Some (OtherException "UsageError" "api_key not configured")
  | _ => None
  end.

(** A base class that cannot write. *)
Definition disk_full : oracle := fun tr c =>
  match c with
  | SummaryWriter_add_scalar _ _ _ _ _ =>
      Some (OtherException "OSError" "No space left on device")
  | _ => None
  end.

(** A client that cannot read the video file at [p]. *)
Definition unreadable (p : string) : oracle := fun tr c =>
  match c with
  | wandb_Video p' _ _ =>
      if String.eqb p p'
      then Some (OtherException "ValueError" "video file is not readable")
      else None
  | _ => None
  end.

(** The video directory with other sub-directory lists and no other files. *)
Definition fs_videos_bare : filesystem :=
  {| exists_ := fun p => String.eqb p "videos";
     walk := fun p =>
       if String.eqb p "videos"
       then [ ("videos", [], ["a.mp4"]);
              ("videos/old", ["tmp"], ["a.mp4"; "b.mp4"]) ]
       else [] |}.

(** A tree that yields the files of [fs_videos], then those of
    [fs_elsewhere]. *)
Definition fs_both : filesystem :=
  {| exists_ := fun p => String.eqb p "all";
     walk := fun p =>
       if String.eqb p "all"
       then walk fs_videos "videos" ++ walk fs_elsewhere "other"
       else [] |}.

(** * Properties *)

(** ** Running the monad *)

Section Running.

Variable collaborators : oracle.

Lemma bind_run {A B : Type} (m : M A) (f : A -> M B) (st : state) :
  (m ≫= f) st = match m st with
                | (Return a, st') => f a st'
                | (Raise e, st') => (Raise e, st')
                end.
Proof. reflexivity. Qed.

Lemma ret_run {A : Type} (a : A) (st : state) :
  (mret a : M A) st = (Return a, st).
Proof. reflexivity. Qed.

Lemma invoke_run (c : call) (st : state) :
  invoke collaborators c st =
    (match collaborators (trace st) c with
     | Some e => Raise e
     | None => Return tt
     end, with_trace st [c]).
Proof. unfold invoke, with_trace. destruct (collaborators _ _); reflexivity. Qed.

Lemma with_trace_nil (st : state) : with_trace st [] = st.
Proof. destruct st. unfold with_trace. cbn. by rewrite app_nil_r. Qed.

Lemma with_trace_app (st : state) (l1 l2 : list call) :
  with_trace (with_trace st l1) l2 = with_trace st (l1 ++ l2).
Proof. unfold with_trace. cbn. by rewrite app_assoc. Qed.

Lemma calls_since_with_trace (st : state) (l : list call) :
  calls_since (length (trace st)) (with_trace st l) = l.
Proof. unfold calls_since, with_trace. cbn. by rewrite drop_app_length. Qed.

End Running.

(** ** Construction *)

Section Construction.

Variable collaborators : oracle.

(** C1. A config without the key [wandb_project] makes the constructor
    raise.  The only call made is the base-class constructor: the session is
    never opened.  Unless the base-class constructor itself raised, the
    exception is the [KeyError] whose message names [wandb_project]. *)
Theorem init_without_project (log_dir : string) (flush_secs : Z)
    (cfg : gmap string value) (st : state) :
  cfg !! "wandb_project" = None ->
  exists (e : exn) (st' : state),
    __init__ collaborators log_dir flush_secs cfg st = (Raise e, st') /\
    calls_since (length (trace st)) st' = [SummaryWriter_init log_dir flush_secs] /\
    (forall project entity name,
       wandb_init project entity name ∉ calls_since (length (trace st)) st') /\
    (collaborators (trace st) (SummaryWriter_init log_dir flush_secs) = None ->
     e = KeyError missing_project) /\
    (exists pre post : string, missing_project = (pre ++ "wandb_project" ++ post)%string).
Proof.
  intros Hproject.
  assert (Hnames : exists pre post : string, missing_project = (pre ++ "wandb_project" ++ post)%string).
  { exists "Please specify ", " in the runner config, e.g. legged_gym.". reflexivity. }
  assert (Hmade : forall project entity name,
             wandb_init project entity name ∉ [SummaryWriter_init log_dir flush_secs]).
  { intros project entity name Hin. apply list_elem_of_singleton in Hin. discriminate. }
  unfold __init__. rewrite bind_run, invoke_run.
  destruct (collaborators _ _) as [e|] eqn:Hbase.
  - exists e, (with_trace st [SummaryWriter_init log_dir flush_secs]).
    rewrite calls_since_with_trace. repeat split; try done.
  - exists (KeyError missing_project),
      (with_trace st [SummaryWriter_init log_dir flush_secs]).
    rewrite calls_since_with_trace. repeat split; try done.
    rewrite bind_run. unfold try_except, lift, subscript. by rewrite Hproject.
Qed.

(** C8. With a project and no entity in the config, and a base-class
    constructor that returns, the session is requested for that project with
    entity [None] and the last component of [log_dir] as run name. *)
Theorem init_without_entity (log_dir : string) (flush_secs : Z)
    (cfg : gmap string value) (project : value) (st : state) :
  cfg !! "wandb_project" = Some project ->
  cfg !! "wandb_entity" = None ->
  collaborators (trace st) (SummaryWriter_init log_dir flush_secs) = None ->
  exists rest,
    calls_since (length (trace st))
      (__init__ collaborators log_dir flush_secs cfg st).2 =
      SummaryWriter_init log_dir flush_secs
        :: wandb_init project VNone (os.path.split log_dir).2 :: rest /\
    (forall p e n, wandb_init p e n ∉ rest).
Proof.
  intros Hproject Hentity Hbase.
  unfold __init__. rewrite bind_run, invoke_run, Hbase.
  rewrite bind_run. unfold try_except at 1. unfold lift at 1, subscript at 1.
  rewrite Hproject.
  rewrite bind_run. unfold try_except, lift, subscript. rewrite Hentity.
  cbn -[os.path.split].
  rewrite bind_run, invoke_run.
  destruct (collaborators _ (wandb_init _ _ _)) as [e|].
  - exists []. cbv [snd]. rewrite with_trace_app, calls_since_with_trace.
    split; [done|]. intros ??? Hin. by apply elem_of_nil in Hin.
  - rewrite bind_run, invoke_run.
    exists [wandb_config_update {[ "log_dir" := VStr log_dir ]}].
    split; [|intros ??? Hin; apply list_elem_of_singleton in Hin; discriminate].
    destruct (collaborators _ (wandb_config_update _)) as [e|]; cbv [snd].
    + by rewrite !with_trace_app, calls_since_with_trace.
    + change (set_video_files [] ?s) with
        (Return tt, {| video_files := []; trace := trace s |}).
      unfold calls_since, with_trace. cbn -[os.path.split].
      rewrite <- !app_assoc. by rewrite drop_app_length.
Qed.

End Construction.

Lemma init_without_project_witness :
  exists (e : exn) (st' : state),
    __init__ reliable "logs/run1" 10 ∅ blank = (Raise e, st') /\
    calls_since (length (trace blank)) st' = [SummaryWriter_init "logs/run1" 10] /\
    (forall project entity name,
       wandb_init project entity name ∉ calls_since (length (trace blank)) st') /\
    (reliable (trace blank) (SummaryWriter_init "logs/run1" 10) = None ->
     e = KeyError missing_project) /\
    (exists pre post : string,
       missing_project = (pre ++ "wandb_project" ++ post)%string).
Proof.
  apply (init_without_project reliable "logs/run1" 10 ∅ blank).
  reflexivity.
Defined.

Lemma init_without_entity_witness :
  exists rest,
    calls_since (length (trace blank))
      (__init__ reliable "logs/run1" 10 cfg_project_only blank).2 =
      SummaryWriter_init "logs/run1" 10
        :: wandb_init (VStr "legged_gym") VNone (os.path.split "logs/run1").2
        :: rest /\
    (forall p e n, wandb_init p e n ∉ rest).
Proof.
  apply (init_without_entity reliable "logs/run1" 10 cfg_project_only
           (VStr "legged_gym") blank); reflexivity.
Defined.

(** ** Scalars, files and the end of the run *)

Section Forwarding.

Variable collaborators : oracle.

(** C4. When the local write returns, [add_scalar] has made exactly two
    calls: the base-class write of [(tag, value, step)], then the remote log
    of [{tag: value}] at the same step; its outcome is that of the remote
    call. *)
Theorem add_scalar_mirrors (tag : string) (scalar_value : value)
    (global_step : option Z) (walltime : option spec_float) (new_style : bool)
    (st : state) :
  collaborators (trace st)
    (SummaryWriter_add_scalar tag scalar_value global_step walltime new_style)
    = None ->
  let local :=
    SummaryWriter_add_scalar tag scalar_value global_step walltime new_style in
  let remote := wandb_log {[ tag := scalar_value ]} global_step in
  add_scalar collaborators tag scalar_value global_step walltime new_style st =
    (match collaborators (trace st ++ [local]) remote with
     | Some e => Raise e
     | None => Return tt
     end, with_trace st [local; remote]).
Proof.
  intros Hlocal. unfold add_scalar.
  by rewrite bind_run, invoke_run, Hlocal, invoke_run, with_trace_app.
Qed.

(** C10. [save_model] does what [save_file] does on the same path, for every
    iteration number: one [wandb.save] of the path, rooted at its parent
    directory. *)
Theorem save_model_is_save_file (path : string) (i j : Z) (st : state) :
  save_model collaborators path i st = save_file collaborators path st /\
  save_model collaborators path j st = save_file collaborators path st /\
  calls_since (length (trace st)) (save_file collaborators path st).2 =
    [wandb_save path (os.path.dirname path)].
Proof.
  split; [reflexivity|]. split; [reflexivity|].
  unfold save_file. rewrite invoke_run. cbv [snd].
  apply calls_since_with_trace.
Qed.

(** C6. On a directory that does not exist, [add_video_files] returns and
    changes nothing: no call is made and the registry is as before. *)
Theorem add_video_files_no_directory (fs : filesystem) (log_dir : string)
    (step fps : Z) (st : state) :
  exists_ fs log_dir = false ->
  add_video_files collaborators fs log_dir step fps st = (Return tt, st).
Proof.
  intros Habsent. unfold add_video_files. by rewrite Habsent.
Qed.

End Forwarding.

Lemma add_scalar_mirrors_witness :
  add_scalar reliable "loss" (VFloat one_and_a_half) (Some 10) None false blank =
    (Return tt,
     with_trace blank
       [ SummaryWriter_add_scalar "loss" (VFloat one_and_a_half) (Some 10)
           None false;
         wandb_log {[ "loss" := VFloat one_and_a_half ]} (Some 10) ]).
Proof.
  apply (add_scalar_mirrors reliable "loss" (VFloat one_and_a_half) (Some 10)
           None false blank).
  reflexivity.
Defined.

Lemma add_video_files_no_directory_witness :
  add_video_files reliable fs_videos "nowhere" 100 30 blank = (Return tt, blank).
Proof.
  apply (add_video_files_no_directory reliable fs_videos "nowhere" 100 30 blank).
  reflexivity.
Defined.

(** ** Configuration snapshots *)

Section StoreConfig.

Variable collaborators : oracle.

(** The first three pushes of [store_config]. *)
Lemma config_pushes_split (train_cfg : gmap string value)
    (policy algorithm d : value) :
  config_pushes train_cfg policy algorithm d =
    [ wandb_config_update {[ "runner_cfg" := VDict train_cfg ]};
      wandb_config_update {[ "policy_cfg" := policy ]};
      wandb_config_update {[ "alg_cfg" := algorithm ]} ]
    ++ [ wandb_config_update {[ "env_cfg" := d ]} ].
Proof. reflexivity. Qed.

(** What [store_config] does on a train config with both sub-configs when the
    client accepts every push. *)
Lemma store_config_run (env_cfg : pyobject) (train_cfg : gmap string value)
    (policy algorithm : value) (st : state) :
  train_cfg !! "policy" = Some policy ->
  train_cfg !! "algorithm" = Some algorithm ->
  (forall tr d, collaborators tr (wandb_config_update d) = None) ->
  let three :=
    [ wandb_config_update {[ "runner_cfg" := VDict train_cfg ]};
      wandb_config_update {[ "policy_cfg" := policy ]};
      wandb_config_update {[ "alg_cfg" := algorithm ]} ] in
  store_config collaborators env_cfg train_cfg st =
    match call_to_dict env_cfg with
    | Return d =>
        (Return tt, with_trace st (config_pushes train_cfg policy algorithm d))
    | Raise e =>
        if is_Exception e then
          match asdict env_cfg with
          | Return d =>
              (Return tt,
               with_trace st (config_pushes train_cfg policy algorithm d))
          | Raise e' => (Raise e', with_trace st three)
          end
        else (Raise e, with_trace st three)
    end.
Proof.
  intros Hpolicy Halgorithm Haccepts three. unfold store_config.
  rewrite bind_run, invoke_run, Haccepts.
  rewrite bind_run. unfold lift at 1, subscript at 1. rewrite Hpolicy.
  rewrite bind_run, invoke_run, Haccepts.
  rewrite bind_run. unfold lift at 1, subscript at 1. rewrite Halgorithm.
  rewrite bind_run, invoke_run, Haccepts.
  rewrite !with_trace_app. cbn [app].
  unfold try_except. rewrite !bind_run. unfold lift.
  destruct (call_to_dict env_cfg) as [d|e].
  - by rewrite invoke_run, Haccepts, with_trace_app.
  - destruct (is_Exception e); [|done].
    destruct (asdict env_cfg) as [d|e']; [|done].
    by rewrite bind_run, invoke_run, Haccepts, with_trace_app.
Qed.

(** C3, amended. On a train config with both sub-configs and with a client
    that accepts every push: the result of [to_dict] is pushed as [env_cfg]
    when the call returns; when [to_dict] is absent or raises an [Exception],
    the result of [asdict] is pushed instead; and an error reaches the
    caller only if [to_dict] is absent or raised and, unless that exception
    is outside [Exception], [asdict] raised too. *)
Theorem store_config_conversion (env_cfg : pyobject)
    (train_cfg : gmap string value) (policy algorithm : value) (st : state) :
  train_cfg !! "policy" = Some policy ->
  train_cfg !! "algorithm" = Some algorithm ->
  (forall tr d, collaborators tr (wandb_config_update d) = None) ->
  (forall d,
     call_to_dict env_cfg = Return d ->
     store_config collaborators env_cfg train_cfg st =
       (Return tt, with_trace st (config_pushes train_cfg policy algorithm d))) /\
  (forall e d,
     call_to_dict env_cfg = Raise e ->
     is_Exception e = true ->
     asdict env_cfg = Return d ->
     store_config collaborators env_cfg train_cfg st =
       (Return tt, with_trace st (config_pushes train_cfg policy algorithm d))) /\
  (forall e st',
     store_config collaborators env_cfg train_cfg st = (Raise e, st') ->
     exists e1,
       call_to_dict env_cfg = Raise e1 /\
       (is_Exception e1 = true /\ asdict env_cfg = Raise e \/
        is_Exception e1 = false /\ e = e1)).
Proof.
  intros Hpolicy Halgorithm Haccepts.
  pose proof (store_config_run env_cfg train_cfg policy algorithm st
                Hpolicy Halgorithm Haccepts) as Hrun.
  cbv zeta in Hrun. repeat split.
  - intros d Hd. by rewrite Hrun, Hd.
  - intros e d He Hcaught Hd. by rewrite Hrun, He, Hcaught, Hd.
  - intros e st' Hraised. rewrite Hrun in Hraised.
    destruct (call_to_dict env_cfg) as [d|e1]; [discriminate|].
    exists e1. split; [done|].
    destruct (is_Exception e1).
    + left. split; [done|].
      destruct (asdict env_cfg) as [d|e']; [discriminate|]. congruence.
    + right. split; [done|]. congruence.
Qed.

(** C7, amended. For a train config that contains [policy] and [algorithm]
    and an env config that [to_dict] or, failing that with an [Exception],
    [asdict] converts to [d], with a client that accepts every push:
    [store_config] returns after exactly four pushes, of [runner_cfg] (the
    train config), [policy_cfg] and [alg_cfg] (its two sub-configs) and
    [env_cfg] (the converted env config), and of no other key. *)
Theorem store_config_pushes_four (env_cfg : pyobject)
    (train_cfg : gmap string value) (policy algorithm d : value) (st : state) :
  train_cfg !! "policy" = Some policy ->
  train_cfg !! "algorithm" = Some algorithm ->
  (forall tr d', collaborators tr (wandb_config_update d') = None) ->
  (call_to_dict env_cfg = Return d \/
   exists e, call_to_dict env_cfg = Raise e /\ is_Exception e = true /\
             asdict env_cfg = Return d) ->
  store_config collaborators env_cfg train_cfg st =
    (Return tt,
     with_trace st
       [ wandb_config_update {[ "runner_cfg" := VDict train_cfg ]};
         wandb_config_update {[ "policy_cfg" := policy ]};
         wandb_config_update {[ "alg_cfg" := algorithm ]};
         wandb_config_update {[ "env_cfg" := d ]} ]) /\
  pushed_keys
    (calls_since (length (trace st))
       (store_config collaborators env_cfg train_cfg st).2) =
    ["runner_cfg"; "policy_cfg"; "alg_cfg"; "env_cfg"].
Proof.
  intros Hpolicy Halgorithm Haccepts Hconverted.
  pose proof (store_config_run env_cfg train_cfg policy algorithm st
                Hpolicy Halgorithm Haccepts) as Hrun.
  cbv zeta in Hrun.
  assert (Hresult : store_config collaborators env_cfg train_cfg st =
            (Return tt,
             with_trace st (config_pushes train_cfg policy algorithm d))).
  { rewrite Hrun. destruct Hconverted as [Hd | (e & He & Hcaught & Hd)].
    - by rewrite Hd.
    - by rewrite He, Hcaught, Hd. }
  split; [exact Hresult|].
  rewrite Hresult. cbv [snd]. rewrite calls_since_with_trace.
  unfold pushed_keys, config_pushes. cbn [flat_map app].
  by rewrite !dom_singleton_L, !elements_singleton.
Qed.

(** An exception raised by the first push is not caught: it reaches the
    caller and no further push is made. *)
Lemma store_config_first_push_raises (env_cfg : pyobject)
    (train_cfg : gmap string value) (e : exn) (st : state) :
  collaborators (trace st)
    (wandb_config_update {[ "runner_cfg" := VDict train_cfg ]}) = Some e ->
  store_config collaborators env_cfg train_cfg st =
    (Raise e,
     with_trace st [wandb_config_update {[ "runner_cfg" := VDict train_cfg ]}]).
Proof.
  intros Hraises. unfold store_config.
  by rewrite bind_run, invoke_run, Hraises.
Qed.

End StoreConfig.

Lemma store_config_conversion_witness :
  let policy := VDict {[ "class_name" := VStr "ActorCritic" ]} in
  let algorithm := VDict {[ "class_name" := VStr "PPO" ]} in
  (forall d,
     call_to_dict env_cfg_dataclass = Return d ->
     store_config reliable env_cfg_dataclass train_cfg_full blank =
       (Return tt,
        with_trace blank (config_pushes train_cfg_full policy algorithm d))) /\
  (forall e d,
     call_to_dict env_cfg_dataclass = Raise e ->
     is_Exception e = true ->
     asdict env_cfg_dataclass = Return d ->
     store_config reliable env_cfg_dataclass train_cfg_full blank =
       (Return tt,
        with_trace blank (config_pushes train_cfg_full policy algorithm d))) /\
  (forall e st',
     store_config reliable env_cfg_dataclass train_cfg_full blank = (Raise e, st') ->
     exists e1,
       call_to_dict env_cfg_dataclass = Raise e1 /\
       (is_Exception e1 = true /\ asdict env_cfg_dataclass = Raise e \/
        is_Exception e1 = false /\ e = e1)).
Proof.
  apply (store_config_conversion reliable env_cfg_dataclass train_cfg_full
           (VDict {[ "class_name" := VStr "ActorCritic" ]})
           (VDict {[ "class_name" := VStr "PPO" ]}) blank).
  - vm_compute. reflexivity.
  - vm_compute. reflexivity.
  - intros tr d. reflexivity.
Defined.

Lemma store_config_pushes_four_witness :
  store_config reliable env_cfg_dataclass train_cfg_full blank =
    (Return tt,
     with_trace blank
       [ wandb_config_update {[ "runner_cfg" := VDict train_cfg_full ]};
         wandb_config_update
           {[ "policy_cfg" := VDict {[ "class_name" := VStr "ActorCritic" ]} ]};
         wandb_config_update
           {[ "alg_cfg" := VDict {[ "class_name" := VStr "PPO" ]} ]};
         wandb_config_update
           {[ "env_cfg" := VDict {[ "num_envs" := VInt 4096 ]} ]} ]) /\
  pushed_keys
    (calls_since (length (trace blank))
       (store_config reliable env_cfg_dataclass train_cfg_full blank).2) =
    ["runner_cfg"; "policy_cfg"; "alg_cfg"; "env_cfg"].
Proof.
  apply (store_config_pushes_four reliable env_cfg_dataclass train_cfg_full
           (VDict {[ "class_name" := VStr "ActorCritic" ]})
           (VDict {[ "class_name" := VStr "PPO" ]})
           (VDict {[ "num_envs" := VInt 4096 ]}) blank).
  - vm_compute. reflexivity.
  - vm_compute. reflexivity.
  - intros tr d'. reflexivity.
  - right. exists (AttributeError "object has no attribute 'to_dict'").
    repeat split.
Defined.

(** C2, at two inputs where it fails.  The client raises on the first push of
    [env_cfg]; [store_config] catches that exception and turns to [asdict].
    For a dataclass it pushes a second time and returns as if nothing had
    happened; for an object that is no dataclass the caller receives the
    [TypeError] of [asdict] in place of the client's exception. *)
Theorem store_config_hides_client_error :
  let env_push :=
    wandb_config_update {[ "env_cfg" := VDict {[ "num_envs" := VInt 4096 ]} ]} in
  let pushes :=
    config_pushes train_cfg_full
      (VDict {[ "class_name" := VStr "ActorCritic" ]})
      (VDict {[ "class_name" := VStr "PPO" ]})
      (VDict {[ "num_envs" := VInt 4096 ]}) in
  fails_once (take 3 pushes) env_push =
    Some (OtherException "CommError" "connection reset") /\
  store_config fails_once env_cfg_both train_cfg_full blank =
    (Return tt, with_trace blank (pushes ++ [env_push])) /\
  store_config fails_once env_cfg_to_dict_only train_cfg_full blank =
    (Raise (TypeError "asdict() should be called on dataclass instances"),
     with_trace blank pushes).
Proof. repeat split; vm_compute; reflexivity. Qed.

(** C3 as stated fails: [to_dict] is interrupted, [asdict] would convert the
    object, and yet nothing is pushed as [env_cfg] and the interrupt reaches
    the caller. *)
Lemma interrupted_to_dict_is_not_recovered :
  call_to_dict env_cfg_interrupted = Raise (NonException "KeyboardInterrupt") /\
  asdict env_cfg_interrupted = Return (VDict {[ "num_envs" := VInt 4096 ]}) /\
  store_config reliable env_cfg_interrupted train_cfg_full blank =
    (Raise (NonException "KeyboardInterrupt"),
     with_trace blank
       [ wandb_config_update {[ "runner_cfg" := VDict train_cfg_full ]};
         wandb_config_update
           {[ "policy_cfg" := VDict {[ "class_name" := VStr "ActorCritic" ]} ]};
         wandb_config_update
           {[ "alg_cfg" := VDict {[ "class_name" := VStr "PPO" ]} ]} ]).
Proof. repeat split; vm_compute; reflexivity. Qed.

(** C7 as stated fails: on an empty train config only [runner_cfg] is pushed,
    then the lookup of [policy] raises. *)
Lemma empty_train_cfg_pushes_one :
  store_config reliable env_cfg_both ∅ blank =
    (Raise (KeyError "policy"),
     with_trace blank [wandb_config_update {[ "runner_cfg" := VDict ∅ ]}]) /\
  pushed_keys (store_config reliable env_cfg_both ∅ blank).2.(trace) =
    ["runner_cfg"].
Proof. split; vm_compute; reflexivity. Qed.

(** ** The video scan *)

Section Fresh.

Implicit Types (registered : list string) (l : list (string * string)).

Lemma fresh_sound registered l v :
  v ∈ fresh registered l ->
  v ∈ l /\ endswith v.2 ".mp4" = true /\ v.2 ∉ registered.
Proof.
  revert registered. induction l as [|[root f] l IH]; intros registered Hin.
  - by apply elem_of_nil in Hin.
  - cbn [fresh] in Hin.
    destruct (endswith f ".mp4") eqn:Hext; cbn [andb] in Hin.
    + destruct (bool_decide (f ∈ registered)) eqn:Hreg; cbn [negb] in Hin.
      * apply IH in Hin as (? & ? & ?). split; [by right|done].
      * apply bool_decide_eq_false in Hreg.
        apply elem_of_cons in Hin as [-> | Hin].
        -- split; [by left|done].
        -- apply IH in Hin as (? & ? & Hnot). split; [by right|].
           split; [done|]. intros Hv. apply Hnot, elem_of_app. by left.
    + apply IH in Hin as (? & ? & ?). split; [by right|done].
Qed.

Lemma fresh_covers registered l v :
  v ∈ l -> endswith v.2 ".mp4" = true ->
  v.2 ∈ registered ++ (fresh registered l).*2.
Proof.
  revert registered. induction l as [|[root f] l IH]; intros registered Hin Hext.
  - by apply elem_of_nil in Hin.
  - cbn [fresh]. apply elem_of_cons in Hin as [-> | Hin].
    + cbn [snd] in *. rewrite Hext. cbn [andb].
      destruct (bool_decide (f ∈ registered)) eqn:Hreg; cbn [negb].
      * apply bool_decide_eq_true in Hreg. apply elem_of_app. by left.
      * apply elem_of_app. right. cbn. by left.
    + destruct (endswith f ".mp4" && negb (bool_decide (f ∈ registered))).
      * specialize (IH (registered ++ [f]) Hin Hext).
        rewrite <- app_assoc in IH. exact IH.
      * by apply IH.
Qed.

Lemma fresh_nothing registered l :
  (forall v, v ∈ l -> endswith v.2 ".mp4" = true -> v.2 ∈ registered) ->
  fresh registered l = [].
Proof.
  revert registered. induction l as [|[root f] l IH]; intros registered Hall.
  - reflexivity.
  - cbn [fresh].
    destruct (endswith f ".mp4") eqn:Hext; cbn [andb].
    + assert (Hreg : f ∈ registered).
      { apply (Hall (root, f)); [by left|done]. }
      rewrite (bool_decide_eq_true_2 _ Hreg). cbn [negb].
      apply IH. intros v Hv. apply Hall. by right.
    + apply IH. intros v Hv. apply Hall. by right.
Qed.

Lemma fresh_NoDup registered l :
  NoDup registered -> NoDup (registered ++ (fresh registered l).*2).
Proof.
  revert registered. induction l as [|[root f] l IH]; intros registered Hnodup.
  - cbn. by rewrite app_nil_r.
  - cbn [fresh].
    destruct (endswith f ".mp4" && negb (bool_decide (f ∈ registered))) eqn:Hcond.
    + apply andb_true_iff in Hcond as [_ Hreg].
      apply negb_true_iff, bool_decide_eq_false in Hreg.
      rewrite fmap_cons, (cons_middle f registered), app_assoc. cbn [snd].
      apply IH. apply NoDup_app. split; [done|]. split.
      * intros x Hx Hx'. apply list_elem_of_singleton in Hx'. by subst.
      * apply NoDup_singleton.
    + by apply IH.
Qed.

Lemma fresh_again registered l :
  fresh (registered ++ (fresh registered l).*2) l = [].
Proof.
  apply fresh_nothing. intros v Hv Hext. by apply fresh_covers.
Qed.

End Fresh.

Section Scan.

Variable collaborators : oracle.
Variables step fps : Z.

Lemma for_each_map {A B : Type} (g : A -> B) (l : list A) (body : B -> M unit)
    (st : state) :
  for_each (map g l) body st = for_each l (fun x => body (g x)) st.
Proof.
  revert st. induction l as [|x l IH]; intros st; [reflexivity|].
  cbn [map for_each]. rewrite !bind_run.
  destruct (body (g x) st) as [[[]|e] st1]; [apply IH|reflexivity].
Qed.

Lemma for_each_app {A : Type} (l1 l2 : list A) (body : A -> M unit) (st : state) :
  for_each (l1 ++ l2) body st = (for_each l1 body;; for_each l2 body) st.
Proof.
  revert st. induction l1 as [|x l1 IH]; intros st; [reflexivity|].
  cbn [app for_each]. rewrite !bind_run.
  destruct (body x st) as [[[]|e] st1]; [|reflexivity].
  by rewrite IH, bind_run.
Qed.

(** The two nested loops visit the discovered files in order. *)
Lemma add_video_files_visits (fs : filesystem) (log_dir : string) (st : state) :
  add_video_files collaborators fs log_dir step fps st =
    for_each (found fs log_dir) (visit collaborators step fps) st.
Proof.
  unfold add_video_files, found. destruct (exists_ fs log_dir); [|reflexivity].
  generalize (walk fs log_dir) as triples. intros triples. revert st.
  induction triples as [|[[root dirs] files] triples IH]; intros st;
    [reflexivity|].
  cbn [flat_map for_each]. rewrite for_each_app, !bind_run, for_each_map.
  change (for_each files _ st) with
    (for_each files (fun x => visit collaborators step fps (root, x)) st).
  destruct (for_each files _ st) as [[[]|e] st1]; [apply IH|reflexivity].
Qed.

(** A file that is not to be uploaded is passed over. *)
Lemma visit_skips (v : string * string) (st : state) :
  endswith v.2 ".mp4" && negb (bool_decide (v.2 ∈ video_files st)) = false ->
  visit collaborators step fps v st = (Return tt, st).
Proof.
  intros Hskip. unfold visit. rewrite bind_run. unfold get_video_files.
  by rewrite Hskip.
Qed.

(** A file to upload is registered first; then come the two client calls,
    of which the second is made only if the first returns. *)
Lemma visit_uploads (v : string * string) (st : state) :
  endswith v.2 ".mp4" && negb (bool_decide (v.2 ∈ video_files st)) = true ->
  let st1 := {| video_files := video_files st ++ [v.2]; trace := trace st |} in
  let video_path := os.path.join v.1 v.2 in
  visit collaborators step fps v st =
    match collaborators (trace st) (wandb_Video video_path fps "mp4") with
    | Some e => (Raise e, with_trace st1 (take 1 (upload_calls step fps v)))
    | None =>
        (match collaborators (trace st ++ [wandb_Video video_path fps "mp4"])
                 (wandb_log {[ "Video" := VVideo video_path fps "mp4" ]}
                    (Some step)) with
         | Some e => Raise e
         | None => Return tt
         end, with_trace st1 (upload_calls step fps v))
    end.
Proof.
  intros Hnew. unfold visit. rewrite bind_run. unfold get_video_files.
  rewrite Hnew. rewrite bind_run. unfold video_files_append.
  rewrite bind_run. unfold new_Video. rewrite bind_run, invoke_run.
  cbn [trace video_files].
  destruct (collaborators _ (wandb_Video _ _ _)) as [e|]; [reflexivity|].
  rewrite ret_run, invoke_run, with_trace_app. reflexivity.
Qed.

(** A scan over files that are all registered does nothing. *)
Lemma scan_nothing (l : list (string * string)) (st : state) :
  fresh (video_files st) l = [] ->
  for_each l (visit collaborators step fps) st = (Return tt, st).
Proof.
  induction l as [|[root f] l IH]; intros Hnone; [reflexivity|].
  cbn [fresh] in Hnone. cbn [for_each]. rewrite bind_run.
  destruct (endswith f ".mp4" && negb (bool_decide (f ∈ video_files st)))
    eqn:Hcond; [discriminate|].
  rewrite visit_skips by exact Hcond. by apply IH.
Qed.

(** What a scan has done when it ends, whether it returns or raises: it has
    registered the first of the files to upload, up to the one at which a
    client call raised, if any. *)
Lemma scan_run (l : list (string * string)) (st : state) :
  exists uploaded rest new_calls,
    fresh (video_files st) l = uploaded ++ rest /\
    let '(r, st') := for_each l (visit collaborators step fps) st in
    video_files st' = video_files st ++ uploaded.*2 /\
    trace st' = trace st ++ new_calls /\
    (r = Return tt ->
     rest = [] /\ new_calls = flat_map (upload_calls step fps) uploaded).
Proof.
  revert st. induction l as [|[root f] l IH]; intros st.
  - exists [], [], []. split; [reflexivity|]. cbn. by rewrite !app_nil_r.
  - cbn [fresh for_each]. rewrite bind_run.
    destruct (endswith f ".mp4" && negb (bool_decide (f ∈ video_files st)))
      eqn:Hcond.
    + pose proof (visit_uploads (root, f) st Hcond) as Hvisit.
      cbv zeta in Hvisit. cbn [fst snd] in Hvisit. rewrite Hvisit. clear Hvisit.
      destruct (collaborators _ (wandb_Video _ _ _)) as [e|].
      { exists [(root, f)], (fresh (video_files st ++ [f]) l),
          (take 1 (upload_calls step fps (root, f))).
        split; [reflexivity|]. cbn [with_trace video_files trace].
        repeat split; discriminate. }
      destruct (collaborators _ (wandb_log _ _)) as [e|].
      { exists [(root, f)], (fresh (video_files st ++ [f]) l),
          (upload_calls step fps (root, f)).
        split; [reflexivity|]. cbn [with_trace video_files trace].
        repeat split; discriminate. }
      set (st2 := with_trace _ _).
      destruct (IH st2) as (uploaded & rest & new_calls & Hfresh & Hrun).
      exists ((root, f) :: uploaded), rest,
        (upload_calls step fps (root, f) ++ new_calls).
      split; [cbn [app]; f_equal; exact Hfresh|].
      destruct (for_each l _ st2) as [r st'].
      destruct Hrun as (Hfiles & Htrace & Hreturned).
      split; [|split].
      * rewrite Hfiles. subst st2. cbn [with_trace video_files].
        by rewrite fmap_cons, <- app_assoc.
      * rewrite Htrace. subst st2. cbn [with_trace trace].
        by rewrite <- app_assoc.
      * intros Hr. destruct (Hreturned Hr) as [-> ->]. by cbn [flat_map].
    + rewrite visit_skips by exact Hcond. apply IH.
Qed.

End Scan.

Section Registry.

Implicit Types (registered : list string) (l : list (string * string)).

Lemma fresh_names_new registered l (f : string) :
  f ∈ (fresh registered l).*2 -> f ∉ registered.
Proof.
  intros Hin. apply list_elem_of_fmap in Hin as (v & -> & Hv).
  by apply fresh_sound in Hv as (_ & _ & ?).
Qed.

Lemma fresh_names_NoDup registered l : NoDup (fresh registered l).*2.
Proof.
  revert registered. induction l as [|[root f] l IH]; intros registered.
  - apply NoDup_nil_2.
  - cbn [fresh].
    destruct (endswith f ".mp4" && negb (bool_decide (f ∈ registered)));
      [|apply IH].
    rewrite fmap_cons. apply NoDup_cons. split; [|apply IH].
    intros Hin. apply fresh_names_new in Hin. apply Hin, elem_of_app.
    right. by left.
Qed.

(** Registering some of the first files to upload keeps the registry free of
    duplicates. *)
Lemma registry_NoDup registered l (uploaded rest : list (string * string)) :
  fresh registered l = uploaded ++ rest ->
  NoDup registered ->
  NoDup (registered ++ uploaded.*2).
Proof.
  intros Hfresh Hnodup.
  pose proof (fresh_names_NoDup registered l) as Hnames.
  rewrite Hfresh, fmap_app in Hnames. apply NoDup_app in Hnames as (Hup & _ & _).
  apply NoDup_app. split; [done|]. split; [|done].
  intros f Hreg Hin. apply (fresh_names_new registered l f); [|done].
  rewrite Hfresh, fmap_app. apply elem_of_app. by left.
Qed.

End Registry.

Section VideoScan.

Variable collaborators : oracle.

(** C5. A scan that returns has uploaded the discovered [.mp4] files whose
    name was not in the registry, one upload per name: a name is uploaded if
    and only if it is discovered, has the extension and is not registered.
    A second scan of the unchanged directory then uploads nothing, and a later
    scan of any directory uploads no file that bears a registered name, such
    as the names uploaded here. *)
Theorem add_video_files_once_per_name (fs : filesystem) (log_dir : string)
    (step fps : Z) (st st1 : state) :
  add_video_files collaborators fs log_dir step fps st = (Return tt, st1) ->
  let uploaded := fresh (video_files st) (found fs log_dir) in
  video_files st1 = video_files st ++ uploaded.*2 /\
  trace st1 = trace st ++ flat_map (upload_calls step fps) uploaded /\
  (forall f : string,
     f ∈ uploaded.*2 <->
     f ∈ (found fs log_dir).*2 /\ endswith f ".mp4" = true /\
     f ∉ video_files st) /\
  NoDup uploaded.*2 /\
  (forall step' fps',
     add_video_files collaborators fs log_dir step' fps' st1 = (Return tt, st1)) /\
  (forall fs' log_dir' step' fps' st2,
     add_video_files collaborators fs' log_dir' step' fps' st1 = (Return tt, st2) ->
     exists uploaded',
       trace st2 = trace st1 ++ flat_map (upload_calls step' fps') uploaded' /\
       (forall v, v ∈ uploaded' ->
          (v.2 ∉ video_files st) /\ (v.2 ∉ uploaded.*2))).
Proof.
  intros Hscan uploaded.
  assert (Hdone : video_files st1 = video_files st ++ uploaded.*2 /\
                  trace st1 = trace st ++ flat_map (upload_calls step fps) uploaded).
  { rewrite add_video_files_visits in Hscan.
    destruct (scan_run collaborators step fps (found fs log_dir) st)
      as (up & rest & new_calls & Hfresh & Hrun).
    rewrite Hscan in Hrun. destruct Hrun as (Hfiles & Htrace & Hreturned).
    destruct (Hreturned eq_refl) as [-> ->].
    rewrite app_nil_r in Hfresh. subst uploaded. by rewrite Hfresh. }
  destruct Hdone as [Hfiles Htrace].
  split; [done|]. split; [done|]. split; [|split; [|split]].
  - intros f. split.
    + intros Hin. apply list_elem_of_fmap in Hin as (v & -> & Hv).
      apply fresh_sound in Hv as (Hv & Hext & Hnew).
      split; [|done]. apply list_elem_of_fmap. by exists v.
    + intros (Hfound & Hext & Hnew).
      apply list_elem_of_fmap in Hfound as (v & -> & Hv).
      pose proof (fresh_covers (video_files st) _ v Hv Hext) as Hcov.
      apply elem_of_app in Hcov as [Hreg | Hup]; [by destruct Hnew|done].
  - apply fresh_names_NoDup.
  - intros step' fps'. rewrite add_video_files_visits.
    apply scan_nothing. rewrite Hfiles. apply fresh_again.
  - intros fs' log_dir' step' fps' st2 Hscan'.
    rewrite add_video_files_visits in Hscan'.
    destruct (scan_run collaborators step' fps' (found fs' log_dir') st1)
      as (up & rest & new_calls & Hfresh & Hrun).
    rewrite Hscan' in Hrun. destruct Hrun as (_ & Htrace' & Hreturned).
    destruct (Hreturned eq_refl) as [-> ->].
    exists up. split; [done|]. intros v Hv.
    rewrite app_nil_r in Hfresh. rewrite <- Hfresh in Hv.
    apply fresh_sound in Hv as (_ & _ & Hnew). rewrite Hfiles in Hnew.
    split; intros Hin; apply Hnew, elem_of_app; [by left|by right].
Qed.

End VideoScan.

Lemma add_video_files_once_per_name_witness :
  let st1 :=
    {| video_files := ["a.mp4"; "b.mp4"];
       trace := flat_map (upload_calls 100 30)
                  [("videos", "a.mp4"); ("videos/old", "b.mp4")] |} in
  let uploaded := fresh (video_files blank) (found fs_videos "videos") in
  video_files st1 = video_files blank ++ uploaded.*2 /\
  trace st1 = trace blank ++ flat_map (upload_calls 100 30) uploaded /\
  (forall f : string,
     f ∈ uploaded.*2 <->
     f ∈ (found fs_videos "videos").*2 /\ endswith f ".mp4" = true /\
     f ∉ video_files blank) /\
  NoDup uploaded.*2 /\
  (forall step' fps',
     add_video_files reliable fs_videos "videos" step' fps' st1 = (Return tt, st1)) /\
  (forall fs' log_dir' step' fps' st2,
     add_video_files reliable fs' log_dir' step' fps' st1 = (Return tt, st2) ->
     exists uploaded',
       trace st2 = trace st1 ++ flat_map (upload_calls step' fps') uploaded' /\
       (forall v, v ∈ uploaded' ->
          (v.2 ∉ video_files blank) /\ (v.2 ∉ uploaded.*2))).
Proof.
  apply (add_video_files_once_per_name reliable fs_videos "videos" 100 30 blank).
  vm_compute. reflexivity.
Defined.

(** ** The registry over the life of a writer *)

Section Lifetime.

Variable collaborators : oracle.

Lemma keeps_ret {A : Type} (a : A) : keeps_registry (mret a : M A).
Proof. intros st. reflexivity. Qed.

Lemma keeps_lift {A : Type} (r : result A) : keeps_registry (lift r).
Proof. intros st. reflexivity. Qed.

Lemma keeps_invoke (c : call) : keeps_registry (invoke collaborators c).
Proof. intros st. by rewrite invoke_run. Qed.

Lemma keeps_bind {A B : Type} (m : M A) (f : A -> M B) :
  keeps_registry m -> (forall a, keeps_registry (f a)) ->
  keeps_registry (m ≫= f).
Proof.
  intros Hm Hf st. rewrite bind_run. specialize (Hm st).
  destruct (m st) as [[a|e] st1]; cbn [snd] in *; [|done].
  by rewrite Hf.
Qed.

Lemma keeps_try {A : Type} (body handler : M A) (catches : exn -> bool) :
  keeps_registry body -> keeps_registry handler ->
  keeps_registry (try_except body catches handler).
Proof.
  intros Hbody Hhandler st. unfold try_except. specialize (Hbody st).
  destruct (body st) as [[a|e] st1]; cbn [snd] in *; [done|].
  destruct (catches e); [|done]. by rewrite Hhandler.
Qed.

Create HintDb registry.

#[local] Hint Resolve keeps_ret keeps_lift keeps_invoke keeps_try : registry.
#[local] Hint Extern 2 (keeps_registry (_ ≫= _)) =>
  apply keeps_bind; [|intros ?] : registry.

(** Every operation but the video scan leaves the registry alone. *)
Lemma perform_keeps (op : operation) :
  is_video_scan op = false -> keeps_registry (perform collaborators op).
Proof.
  destruct op; intros Hop; try discriminate; cbn [perform];
    unfold store_config, add_scalar, stop, save_model, save_file;
    auto 20 with registry.
Qed.

(** An operation appends to the registry and introduces no duplicate. *)
Lemma perform_appends (op : operation) (st : state) :
  NoDup (video_files st) ->
  exists added,
    video_files (perform collaborators op st).2 = video_files st ++ added /\
    NoDup (video_files st ++ added).
Proof.
  intros Hnodup. destruct (is_video_scan op) eqn:Hop.
  - destruct op; try discriminate. cbn [perform].
    rewrite add_video_files_visits.
    destruct (scan_run collaborators step fps (found fs log_dir) st)
      as (uploaded & rest & new_calls & Hfresh & Hrun).
    destruct (for_each _ _ st) as [r st']. destruct Hrun as (Hfiles & _).
    exists uploaded.*2. split; [done|]. by eapply registry_NoDup.
  - exists []. rewrite app_nil_r. split; [|done]. by apply perform_keeps.
Qed.

Lemma perform_all_appends (ops : list operation) (st : state) :
  NoDup (video_files st) ->
  video_files st `prefix_of` video_files (perform_all collaborators ops st) /\
  NoDup (video_files (perform_all collaborators ops st)).
Proof.
  revert st. induction ops as [|op ops IH]; intros st Hnodup; [done|].
  cbn [perform_all].
  destruct (perform_appends op st Hnodup) as (added & Hfiles & Hnodup').
  rewrite <- Hfiles in Hnodup'.
  destruct (IH _ Hnodup') as [Hprefix Hfinal]. split; [|done].
  etrans; [|exact Hprefix]. rewrite Hfiles. by apply prefix_app_r.
Qed.

Lemma perform_all_app (ops1 ops2 : list operation) (st : state) :
  perform_all collaborators (ops1 ++ ops2) st =
    perform_all collaborators ops2 (perform_all collaborators ops1 st).
Proof.
  revert st. induction ops1 as [|op ops1 IH]; intros st; [done|]. apply IH.
Qed.

(** C9. The constructor leaves an empty registry.  From then on, whatever
    operations follow, the registry only grows at its end and never holds a
    name twice; every operation other than the video scan leaves it as it
    is; and a scan adds the names of the files it set out to upload, which
    are all of the files it uploaded when it returns. *)
Theorem registry_grows (log_dir : string) (flush_secs : Z)
    (cfg : gmap string value) (st st1 : state) :
  __init__ collaborators log_dir flush_secs cfg st = (Return tt, st1) ->
  video_files st1 = [] /\
  (forall ops1 ops2,
     let before := perform_all collaborators ops1 st1 in
     let after := perform_all collaborators (ops1 ++ ops2) st1 in
     video_files before `prefix_of` video_files after /\
     NoDup (video_files after)) /\
  (forall op st2,
     is_video_scan op = false ->
     video_files (perform collaborators op st2).2 = video_files st2) /\
  (forall fs dir step fps st2 r st3,
     add_video_files collaborators fs dir step fps st2 = (r, st3) ->
     exists uploaded,
       uploaded `prefix_of` fresh (video_files st2) (found fs dir) /\
       video_files st3 = video_files st2 ++ uploaded.*2 /\
       (r = Return tt ->
        trace st3 = trace st2 ++ flat_map (upload_calls step fps) uploaded)).
Proof.
  intros Hinit.
  assert (Hempty : video_files st1 = []).
  { unfold __init__ in Hinit. rewrite bind_run, invoke_run in Hinit.
    destruct (collaborators _ _); [discriminate|].
    rewrite bind_run in Hinit.
    destruct (try_except _ _ _ _) as [[project|e] s1]; [|discriminate].
    rewrite bind_run in Hinit.
    destruct (try_except _ _ _ _) as [[entity|e] s2]; [|discriminate].
    rewrite bind_run, invoke_run in Hinit.
    destruct (collaborators _ _); [discriminate|].
    rewrite bind_run, invoke_run in Hinit.
    destruct (collaborators _ _); [discriminate|].
    unfold set_video_files in Hinit. by injection Hinit as <-. }
  split; [done|]. split; [|split].
  - intros ops1 ops2 before after. subst before after.
    rewrite perform_all_app.
    assert (Hnodup : NoDup (video_files st1)) by (rewrite Hempty; apply NoDup_nil_2).
    destruct (perform_all_appends ops1 st1 Hnodup) as [_ Hbefore].
    by apply perform_all_appends.
  - intros op st2 Hop. by apply perform_keeps.
  - intros fs dir step fps st2 r st3 Hscan.
    rewrite add_video_files_visits in Hscan.
    destruct (scan_run collaborators step fps (found fs dir) st2)
      as (uploaded & rest & new_calls & Hfresh & Hrun).
    rewrite Hscan in Hrun. destruct Hrun as (Hfiles & Htrace & Hreturned).
    exists uploaded. split; [by exists rest|]. split; [done|].
    intros Hr. destruct (Hreturned Hr) as [_ ->]. done.
Qed.

End Lifetime.

Lemma registry_grows_witness :
  let st1 :=
    with_trace blank
      [ SummaryWriter_init "logs/run1" 10;
        wandb_init (VStr "legged_gym") VNone "run1";
        wandb_config_update {[ "log_dir" := VStr "logs/run1" ]} ] in
  video_files st1 = [] /\
  (forall ops1 ops2,
     let before := perform_all reliable ops1 st1 in
     let after := perform_all reliable (ops1 ++ ops2) st1 in
     video_files before `prefix_of` video_files after /\
     NoDup (video_files after)) /\
  (forall op st2,
     is_video_scan op = false ->
     video_files (perform reliable op st2).2 = video_files st2) /\
  (forall fs dir step fps st2 r st3,
     add_video_files reliable fs dir step fps st2 = (r, st3) ->
     exists uploaded,
       uploaded `prefix_of` fresh (video_files st2) (found fs dir) /\
       video_files st3 = video_files st2 ++ uploaded.*2 /\
       (r = Return tt ->
        trace st3 = trace st2 ++ flat_map (upload_calls step fps) uploaded)).
Proof.
  apply (registry_grows reliable "logs/run1" 10 cfg_project_only blank).
  vm_compute. reflexivity.
Defined.

(** * Further properties *)

(** ** [store_config]: missing keys, conversions, client errors *)

Section StoreConfigEdges.

Variable collaborators : oracle.

(** X1. On a train config without [policy], [store_config] pushes
    [runner_cfg] and, if the client accepts it, raises [KeyError('policy')]:
    nothing else is pushed and the env config is not looked at. *)
Theorem store_config_without_policy (env_cfg : pyobject)
    (train_cfg : gmap string value) (st : state) :
  train_cfg !! "policy" = None ->
  collaborators (trace st)
    (wandb_config_update {[ "runner_cfg" := VDict train_cfg ]}) = None ->
  store_config collaborators env_cfg train_cfg st =
    (Raise (KeyError "policy"),
     with_trace st [wandb_config_update {[ "runner_cfg" := VDict train_cfg ]}]).
Proof.
  intros Hpolicy Haccepts. unfold store_config.
  rewrite bind_run, invoke_run, Haccepts, bind_run.
  unfold lift, subscript. by rewrite Hpolicy.
Qed.

(** X2. On a train config with [policy] and without [algorithm], the first
    two fragments are pushed and stay pushed; then [KeyError('algorithm')] is
    raised. *)
Theorem store_config_without_algorithm (env_cfg : pyobject)
    (train_cfg : gmap string value) (policy : value) (st : state) :
  train_cfg !! "policy" = Some policy ->
  train_cfg !! "algorithm" = None ->
  accepted collaborators (trace st)
    [ wandb_config_update {[ "runner_cfg" := VDict train_cfg ]};
      wandb_config_update {[ "policy_cfg" := policy ]} ] ->
  store_config collaborators env_cfg train_cfg st =
    (Raise (KeyError "algorithm"),
     with_trace st
       [ wandb_config_update {[ "runner_cfg" := VDict train_cfg ]};
         wandb_config_update {[ "policy_cfg" := policy ]} ]).
Proof.
  intros Hpolicy Halgorithm (Hfirst & Hsecond & _). unfold store_config.
  rewrite bind_run, invoke_run, Hfirst, bind_run.
  unfold lift at 1, subscript at 1. rewrite Hpolicy.
  rewrite bind_run, invoke_run. cbn [with_trace trace]. rewrite Hsecond.
  rewrite bind_run. unfold lift at 1, subscript at 1. rewrite Halgorithm.
  unfold with_trace. cbn. by rewrite <- app_assoc.
Qed.

(** Once the three fragments of the train config are pushed, what is left
    of [store_config] is the guarded conversion of the env config. *)
Lemma store_config_after_train_pushes (env_cfg : pyobject)
    (train_cfg : gmap string value) (policy algorithm : value) (st : state) :
  train_cfg !! "policy" = Some policy ->
  train_cfg !! "algorithm" = Some algorithm ->
  accepted collaborators (trace st) (train_pushes train_cfg policy algorithm) ->
  store_config collaborators env_cfg train_cfg st =
    try_except
      (d ← lift (call_to_dict env_cfg); invoke collaborators (env_push d))
      is_Exception
      (d ← lift (asdict env_cfg); invoke collaborators (env_push d))
      (with_trace st (train_pushes train_cfg policy algorithm)).
Proof.
  intros Hpolicy Halgorithm (Hfirst & Hsecond & Hthird & _).
  unfold store_config.
  rewrite bind_run, invoke_run, Hfirst, bind_run.
  unfold lift at 1, subscript at 1. rewrite Hpolicy.
  rewrite bind_run, invoke_run. cbn [with_trace trace]. rewrite Hsecond.
  rewrite bind_run. unfold lift at 1, subscript at 1. rewrite Halgorithm.
  rewrite bind_run, invoke_run. cbn [with_trace trace video_files].
  rewrite Hthird.
  unfold with_trace, train_pushes. cbn [trace video_files].
  by rewrite <- !app_assoc.
Qed.

(** X3. A client exception on one of the three pushes of the train config
    reaches the caller as it is, and no later push is made. *)
Theorem store_config_train_push_raises (env_cfg : pyobject)
    (train_cfg : gmap string value) (policy algorithm : value)
    (k : nat) (c : call) (e : exn) (st : state) :
  train_cfg !! "policy" = Some policy ->
  train_cfg !! "algorithm" = Some algorithm ->
  train_pushes train_cfg policy algorithm !! k = Some c ->
  accepted collaborators (trace st)
    (take k (train_pushes train_cfg policy algorithm)) ->
  collaborators
    (trace st ++ take k (train_pushes train_cfg policy algorithm)) c = Some e ->
  store_config collaborators env_cfg train_cfg st =
    (Raise e,
     with_trace st (take (S k) (train_pushes train_cfg policy algorithm))).
Proof.
  intros Hpolicy Halgorithm Hk Hbefore Hraises. unfold store_config.
  destruct k as [|[|[|k]]]; cbn in Hk; try discriminate;
    injection Hk as <-; cbn [take train_pushes] in *.
  - rewrite app_nil_r in Hraises.
    by rewrite bind_run, invoke_run, Hraises.
  - destruct Hbefore as (Hfirst & _).
    rewrite bind_run, invoke_run, Hfirst, bind_run.
    unfold lift at 1, subscript at 1. rewrite Hpolicy.
    rewrite bind_run, invoke_run. cbn [with_trace trace]. rewrite Hraises.
    unfold with_trace. cbn. by rewrite <- app_assoc.
  - destruct Hbefore as (Hfirst & Hsecond & _).
    rewrite bind_run, invoke_run, Hfirst, bind_run.
    unfold lift at 1, subscript at 1. rewrite Hpolicy.
    rewrite bind_run, invoke_run. cbn [with_trace trace]. rewrite Hsecond.
    rewrite bind_run. unfold lift at 1, subscript at 1. rewrite Halgorithm.
    rewrite bind_run, invoke_run. cbn [with_trace trace video_files].
    rewrite <- app_assoc. cbn [app]. rewrite Hraises.
    unfold with_trace. cbn. by rewrite <- !app_assoc.
Qed.

(** X4. An env config that has no [to_dict] and is no dataclass instance, a
    plain dict for one, cannot be stored: after the three pushes of the train
    config, [store_config] raises the [TypeError] of [asdict], and no
    [env_cfg] is pushed. *)
Theorem store_config_plain_dict (env_cfg : pyobject)
    (train_cfg : gmap string value) (policy algorithm : value) (st : state) :
  train_cfg !! "policy" = Some policy ->
  train_cfg !! "algorithm" = Some algorithm ->
  accepted collaborators (trace st) (train_pushes train_cfg policy algorithm) ->
  to_dict env_cfg = None ->
  dataclass_fields env_cfg = None ->
  store_config collaborators env_cfg train_cfg st =
    (Raise (TypeError "asdict() should be called on dataclass instances"),
     with_trace st (train_pushes train_cfg policy algorithm)).
Proof.
  intros Hpolicy Halgorithm Haccepted Hmethod Hfields.
  rewrite (store_config_after_train_pushes _ _ policy algorithm) by done.
  unfold try_except. rewrite bind_run. unfold lift at 1, call_to_dict.
  rewrite Hmethod. cbn [is_Exception].
  rewrite bind_run. unfold lift, asdict. by rewrite Hfields.
Qed.

(** X5. The push of the fallback conversion is not guarded: when [to_dict]
    is absent or raises an [Exception] and [asdict] converts the object, a
    client exception on the push of the result reaches the caller as it
    is. *)
Theorem store_config_fallback_push_raises (env_cfg : pyobject)
    (train_cfg : gmap string value) (policy algorithm d : value)
    (e1 e : exn) (st : state) :
  train_cfg !! "policy" = Some policy ->
  train_cfg !! "algorithm" = Some algorithm ->
  accepted collaborators (trace st) (train_pushes train_cfg policy algorithm) ->
  call_to_dict env_cfg = Raise e1 ->
  is_Exception e1 = true ->
  asdict env_cfg = Return d ->
  collaborators (trace st ++ train_pushes train_cfg policy algorithm)
    (env_push d) = Some e ->
  store_config collaborators env_cfg train_cfg st =
    (Raise e,
     with_trace st (train_pushes train_cfg policy algorithm ++ [env_push d])).
Proof.
  intros Hpolicy Halgorithm Haccepted Hmethod Hcaught Hfields Hraises.
  rewrite (store_config_after_train_pushes _ _ policy algorithm) by done.
  unfold try_except. rewrite bind_run. unfold lift at 1. rewrite Hmethod, Hcaught.
  rewrite bind_run. unfold lift. rewrite Hfields.
  rewrite invoke_run. cbn [with_trace trace]. rewrite Hraises.
  by rewrite with_trace_app.
Qed.

(** X6. The push of the [to_dict] result is guarded together with the
    conversion: when the client raises an [Exception] on it, the caller does
    not receive that exception.  [store_config] goes on to [asdict]: it raises
    the error of [asdict], or pushes the second conversion, and its outcome is
    then that of the second push. *)
Theorem store_config_guarded_push (env_cfg : pyobject)
    (train_cfg : gmap string value) (policy algorithm d : value)
    (e : exn) (st : state) :
  train_cfg !! "policy" = Some policy ->
  train_cfg !! "algorithm" = Some algorithm ->
  accepted collaborators (trace st) (train_pushes train_cfg policy algorithm) ->
  call_to_dict env_cfg = Return d ->
  collaborators (trace st ++ train_pushes train_cfg policy algorithm)
    (env_push d) = Some e ->
  is_Exception e = true ->
  let made := train_pushes train_cfg policy algorithm ++ [env_push d] in
  store_config collaborators env_cfg train_cfg st =
    match asdict env_cfg with
    | Raise e' => (Raise e', with_trace st made)
    | Return d' =>
        (match collaborators (trace st ++ made) (env_push d') with
         | Some e2 => Raise e2
         | None => Return tt
         end, with_trace st (made ++ [env_push d']))
    end.
Proof.
  intros Hpolicy Halgorithm Haccepted Hmethod Hraises Hcaught made.
  rewrite (store_config_after_train_pushes _ _ policy algorithm) by done.
  unfold try_except. rewrite bind_run. unfold lift at 1. rewrite Hmethod.
  rewrite invoke_run. cbn [with_trace trace]. rewrite Hraises, Hcaught.
  rewrite bind_run. unfold lift.
  destruct (asdict env_cfg) as [d'|e']; rewrite ?with_trace_app; [|done].
  rewrite invoke_run, !with_trace_app. cbn [with_trace trace].
  by rewrite <- app_assoc.
Qed.

(** X7. An exception outside [Exception] that the client raises on the push
    of the [to_dict] result is not caught: it reaches the caller and [asdict]
    is not tried. *)
Theorem store_config_interrupted_push (env_cfg : pyobject)
    (train_cfg : gmap string value) (policy algorithm d : value)
    (e : exn) (st : state) :
  train_cfg !! "policy" = Some policy ->
  train_cfg !! "algorithm" = Some algorithm ->
  accepted collaborators (trace st) (train_pushes train_cfg policy algorithm) ->
  call_to_dict env_cfg = Return d ->
  collaborators (trace st ++ train_pushes train_cfg policy algorithm)
    (env_push d) = Some e ->
  is_Exception e = false ->
  store_config collaborators env_cfg train_cfg st =
    (Raise e,
     with_trace st (train_pushes train_cfg policy algorithm ++ [env_push d])).
Proof.
  intros Hpolicy Halgorithm Haccepted Hmethod Hraises Hcaught.
  rewrite (store_config_after_train_pushes _ _ policy algorithm) by done.
  unfold try_except. rewrite bind_run. unfold lift at 1. rewrite Hmethod.
  rewrite invoke_run. cbn [with_trace trace]. rewrite Hraises, Hcaught.
  by rewrite with_trace_app.
Qed.

End StoreConfigEdges.

(** ** Which calls an operation makes, and how many *)

Section Calls.

Variable collaborators : oracle.

Lemma makes_weaken {A : Type} (P : call -> Prop) (n n' : nat) (m : M A) :
  (n <= n')%nat -> makes P n m -> makes P n' m.
Proof.
  intros Hle Hm st. destruct (Hm st) as (l & Htrace & Hlen & Hall).
  exists l. split; [done|]. split; [lia|done].
Qed.

Lemma makes_ext {A : Type} (P : call -> Prop) (n : nat) (m m' : M A) :
  (forall st, m st = m' st) -> makes P n m' -> makes P n m.
Proof. intros Heq Hm st. rewrite Heq. apply Hm. Qed.

Lemma makes_silent {A : Type} (P : call -> Prop) (m : M A) :
  (forall st, trace (m st).2 = trace st) -> makes P 0 m.
Proof.
  intros Hsame st. exists []. rewrite app_nil_r. split; [apply Hsame|].
  split; [done|apply Forall_nil_2].
Qed.

Lemma makes_invoke (P : call -> Prop) (c : call) :
  P c -> makes P 1 (invoke collaborators c).
Proof.
  intros Hc st. exists [c]. rewrite invoke_run. split; [done|].
  split; [done|]. by apply Forall_singleton.
Qed.

Lemma makes_bind {A B : Type} (P : call -> Prop) (n1 n2 : nat) (m : M A)
    (f : A -> M B) :
  makes P n1 m -> (forall a, makes P n2 (f a)) -> makes P (n1 + n2) (m ≫= f).
Proof.
  intros Hm Hf st. rewrite bind_run.
  destruct (Hm st) as (l1 & Htrace1 & Hlen1 & Hall1).
  destruct (m st) as [[a|e] st1]; cbn [snd] in *.
  - destruct (Hf a st1) as (l2 & Htrace2 & Hlen2 & Hall2).
    exists (l1 ++ l2). rewrite Htrace2, Htrace1, app_assoc.
    split; [done|]. rewrite length_app. split; [lia|by apply Forall_app].
  - exists l1. split; [done|]. split; [lia|done].
Qed.

Lemma makes_try {A : Type} (P : call -> Prop) (n1 n2 : nat) (body handler : M A)
    (catches : exn -> bool) :
  makes P n1 body -> makes P n2 handler ->
  makes P (n1 + n2) (try_except body catches handler).
Proof.
  intros Hbody Hhandler st. unfold try_except.
  destruct (Hbody st) as (l1 & Htrace1 & Hlen1 & Hall1).
  destruct (body st) as [[a|e] st1]; cbn [snd] in *.
  - exists l1. split; [done|]. split; [lia|done].
  - destruct (catches e).
    + destruct (Hhandler st1) as (l2 & Htrace2 & Hlen2 & Hall2).
      exists (l1 ++ l2). rewrite Htrace2, Htrace1, app_assoc.
      split; [done|]. rewrite length_app. split; [lia|by apply Forall_app].
    + exists l1. split; [done|]. split; [lia|done].
Qed.

Lemma makes_for_each {A : Type} (P : call -> Prop) (k : A -> nat)
    (l : list A) (body : A -> M unit) :
  (forall x, makes P (k x) (body x)) ->
  makes P (sum_list_with k l) (for_each l body).
Proof.
  intros Hbody. induction l as [|x l IH]; cbn [sum_list_with for_each].
  - by apply makes_silent.
  - apply makes_bind; [apply Hbody|intros _; apply IH].
Qed.

Lemma makes_visit (P : call -> Prop) (step fps : Z) (v : string * string) :
  (forall c, c ∈ upload_calls step fps v -> P c) ->
  makes P (if endswith v.2 ".mp4" then 2 else 0)
    (visit collaborators step fps v).
Proof.
  intros Hcalls st.
  destruct (endswith v.2 ".mp4" && negb (bool_decide (v.2 ∈ video_files st)))
    eqn:Hcond.
  - pose proof (visit_uploads collaborators step fps v st Hcond) as Hvisit.
    cbv zeta in Hvisit. rewrite Hvisit. clear Hvisit.
    apply andb_true_iff in Hcond as [-> _].
    assert (Hall : Forall P (upload_calls step fps v))
      by (by apply Forall_forall).
    destruct (collaborators _ (wandb_Video _ _ _)).
    + exists (take 1 (upload_calls step fps v)). split; [done|].
      split; [cbn; lia|by apply Forall_take].
    + exists (upload_calls step fps v). split; [done|]. split; [cbn; lia|done].
  - rewrite visit_skips by done. exists []. rewrite app_nil_r.
    split; [done|]. split; [|apply Forall_nil_2].
    cbn [length]. destruct (endswith v.2 ".mp4"); lia.
Qed.

Lemma sum_video_bound (l : list (string * string)) :
  sum_list_with (fun v => if endswith v.2 ".mp4" then 2 else 0)%nat l =
    (2 * length (filter (fun v => endswith v.2 ".mp4" = true) l))%nat.
Proof.
  induction l as [|v l IH]; [done|]. cbn [sum_list_with]. cbv beta.
  rewrite IH, filter_cons.
  case_decide as Hext; destruct (endswith v.2 ".mp4"); try done;
    cbn [length]; lia.
Qed.

(** X8. Every operation forwards to its own collaborator calls and makes a
    bounded number of them, whatever the collaborators answer: at most five
    config pushes for [store_config]; the local write and the log of
    [{tag: value}] at the given step for [add_scalar]; one [wandb.finish]
    for [stop]; one [wandb.save] rooted at the parent directory for
    [save_model] and [save_file]; and for [add_video_files] at most two calls
    per discovered [.mp4] file, video objects with the given frame rate and
    format [mp4] and logs at the given step.  No operation opens a session,
    and none but [add_scalar] writes locally. *)
Theorem perform_forwards (op : operation) :
  makes (forwards_to op) (call_bound op) (perform collaborators op).
Proof.
  destruct op; cbn [perform call_bound].
  - unfold store_config.
    eapply makes_weaken; [|repeat first
      [ eapply makes_bind; [|intros ?]
      | eapply makes_try
      | eapply makes_invoke; exact I
      | eapply makes_silent; intros ?; reflexivity ]].
    cbn. lia.
  - unfold add_scalar. change 2%nat with (1 + 1)%nat.
    apply makes_bind; [|intros _]; by apply makes_invoke.
  - by apply makes_invoke.
  - by apply makes_invoke.
  - by apply makes_invoke.
  - eapply makes_ext; [intros st; apply add_video_files_visits|].
    rewrite <- sum_video_bound. apply makes_for_each. intros v.
    apply makes_visit. intros c Hc. unfold upload_calls in Hc.
    apply elem_of_cons in Hc as [-> | Hc]; [done|].
    apply list_elem_of_singleton in Hc as ->. done.
Qed.

End Calls.

(** ** Paths: run names, base paths, video paths *)

Section Paths.

Local Open Scope string_scope.

Lemma append_empty (s : string) : "" ++ s = s.
Proof. reflexivity. Qed.

Lemma append_String (c : ascii) (a s : string) :
  String c a ++ s = String c (a ++ s).
Proof. reflexivity. Qed.

Lemma append_assoc (a b c : string) : (a ++ b) ++ c = a ++ b ++ c.
Proof.
  induction a as [|x a IH]; [done|]. by rewrite !append_String, IH.
Qed.

Lemma cut_no_sep (p : string) :
  has_sep p = false -> os.path.cut p = ("", p).
Proof.
  induction p as [|c r IH]; [done|]. cbn [has_sep os.path.cut].
  intros Hsep. apply orb_false_iff in Hsep as [Hc Hr].
  by rewrite (IH Hr), Hc.
Qed.

Lemma cut_concat (p : string) : (os.path.cut p).1 ++ (os.path.cut p).2 = p.
Proof.
  induction p as [|c r IH]; [done|]. cbn [os.path.cut].
  destruct (os.path.cut r) as [[|c' h] t] eqn:Hcut; cbn [fst snd] in *.
  - rewrite append_empty in IH.
    destruct (Ascii.eqb c os.path.sep); cbn [fst snd];
      rewrite ?append_String, ?append_empty; congruence.
  - rewrite append_String. congruence.
Qed.

Lemma cut_tail_no_sep (p : string) : has_sep (os.path.cut p).2 = false.
Proof.
  induction p as [|c r IH]; [done|]. cbn [os.path.cut].
  destruct (os.path.cut r) as [[|c' h] t] eqn:Hcut; cbn [fst snd] in *; [|done].
  destruct (Ascii.eqb c os.path.sep) eqn:Hc; cbn [snd has_sep].
  - pose proof (cut_concat r) as Hr. rewrite Hcut in Hr. cbn [fst snd] in Hr.
    rewrite append_empty in Hr. by rewrite <- Hr.
  - by rewrite Hc, IH.
Qed.

Lemma cut_app_sep (a f : string) :
  has_sep f = false ->
  os.path.cut (a ++ String os.path.sep f) = (a ++ "/", f).
Proof.
  intros Hf. induction a as [|c a IH].
  - rewrite !append_empty. cbn [os.path.cut].
    by rewrite (cut_no_sep f Hf), Ascii.eqb_refl.
  - rewrite !append_String. cbn [os.path.cut]. rewrite IH. by destruct a.
Qed.

Lemma endswith_sep_cons (c c' : ascii) (r : string) :
  endswith (String c (String c' r)) "/" = endswith (String c' r) "/".
Proof.
  unfold endswith. cbn [String.length Nat.leb Nat.sub andb substring].
  by rewrite !Nat.sub_0_r.
Qed.

Lemma endswith_sep (s : string) :
  endswith s "/" = true -> exists a, s = a ++ "/".
Proof.
  induction s as [|c [|c' r] IH].
  - discriminate.
  - unfold endswith. cbn. intros Hc. exists "".
    destruct (Ascii.eqb_spec c "/"); [by subst|discriminate].
  - rewrite endswith_sep_cons. intros Hr. destruct (IH Hr) as [a Ha].
    exists (String c a). by rewrite append_String, <- Ha.
Qed.

Lemma rstrip_app_sep (a : string) :
  os.path.rstrip (a ++ "/") = os.path.rstrip a.
Proof.
  induction a as [|c a IH]; [done|]. rewrite append_String.
  cbn [os.path.rstrip]. by rewrite IH.
Qed.

Lemma rstrip_fixed (a : string) :
  endswith a "/" = false -> os.path.rstrip a = a.
Proof.
  induction a as [|c [|c' r] IH]; [done| |].
  - intros Hc. cbn [os.path.rstrip].
    destruct (Ascii.eqb c os.path.sep) eqn:Heq; [|done].
    apply Ascii.eqb_eq in Heq as ->. vm_compute in Hc. discriminate.
  - rewrite endswith_sep_cons. intros Hr. specialize (IH Hr).
    change (os.path.rstrip (String c (String c' r))) with
      (match os.path.rstrip (String c' r) with
       | EmptyString =>
           if Ascii.eqb c os.path.sep then EmptyString else String c EmptyString
       | r' => String c r'
       end).
    by rewrite IH.
Qed.

Lemma prefix_sep (f : string) : has_sep f = false -> String.prefix "/" f = false.
Proof.
  destruct f as [|c r]; [done|]. cbn [has_sep String.prefix].
  intros Hsep. apply orb_false_iff in Hsep as [Hc _].
  destruct (ascii_dec "/" c) as [<-|]; [|done]. discriminate.
Qed.

(** The name of a file that holds no separator is the last component of
    its path in any directory. *)
Lemma split_join (root f : string) :
  has_sep f = false -> (os.path.split (os.path.join root f)).2 = f.
Proof.
  intros Hf. unfold os.path.split, os.path.join.
  rewrite (prefix_sep f Hf).
  assert (Hsep : forall a, (os.path.cut (a ++ "/" ++ f)).2 = f).
  { intros a. change ("/" ++ f) with (String os.path.sep f).
    by rewrite cut_app_sep. }
  destruct (String.eqb_spec root "") as [->|Hroot]; cbn [orb].
  - rewrite append_empty. by rewrite (cut_no_sep f Hf).
  - destruct (endswith root "/") eqn:Hend.
    + destruct (endswith_sep root Hend) as [a ->].
      rewrite append_assoc. specialize (Hsep a).
      by destruct (os.path.cut _).
    + specialize (Hsep root). by destruct (os.path.cut _).
Qed.

(** A file joined to a directory without trailing separator lies in that
    directory. *)
Lemma dirname_join (dir name : string) :
  dir <> "" -> endswith dir "/" = false -> has_sep name = false ->
  os.path.join dir name = dir ++ "/" ++ name /\
  os.path.dirname (dir ++ "/" ++ name) = dir.
Proof.
  intros Hdir Hend Hname. split.
  - unfold os.path.join. rewrite (prefix_sep name Hname), Hend.
    by destruct (String.eqb_spec dir "").
  - unfold os.path.dirname. change ("/" ++ name) with (String os.path.sep name).
    rewrite cut_app_sep by done. cbn [fst]. unfold os.path.strip_head.
    rewrite rstrip_app_sep, (rstrip_fixed dir Hend). by destruct dir.
Qed.

End Paths.

(** ** The constructor *)

Section Constructor.

Variable collaborators : oracle.

(** The three calls of a constructor that finds its project. *)
Lemma init_entity (cfg : gmap string value) (st : state) :
  try_except (lift (subscript cfg "wandb_entity")) is_KeyError (mret VNone) st =
    (Return (default VNone (cfg !! "wandb_entity")), st).
Proof.
  unfold try_except, lift, subscript. by destruct (cfg !! "wandb_entity").
Qed.

Lemma init_project (cfg : gmap string value) (project : value) (st : state) :
  cfg !! "wandb_project" = Some project ->
  try_except (lift (subscript cfg "wandb_project")) is_KeyError
    (raise (KeyError missing_project)) st = (Return project, st).
Proof. intros Hproject. unfold try_except, lift, subscript. by rewrite Hproject. Qed.

(** What the constructor does after the base-class constructor returned,
    for a config that holds a project. *)
Lemma init_after_base (log_dir : string) (flush_secs : Z)
    (cfg : gmap string value) (project : value) (st : state) :
  cfg !! "wandb_project" = Some project ->
  collaborators (trace st) (SummaryWriter_init log_dir flush_secs) = None ->
  __init__ collaborators log_dir flush_secs cfg st =
    (invoke collaborators
       (wandb_init project (default VNone (cfg !! "wandb_entity"))
          (os.path.split log_dir).2);;
     invoke collaborators (wandb_config_update {[ "log_dir" := VStr log_dir ]});;
     set_video_files [])
      (with_trace st [SummaryWriter_init log_dir flush_secs]).
Proof.
  intros Hproject Hbase. unfold __init__.
  rewrite bind_run, invoke_run, Hbase.
  rewrite bind_run.
  change (try_except (lift (subscript cfg "wandb_project")) is_KeyError _ ?s)
    with (try_except (lift (subscript cfg "wandb_project")) is_KeyError
            (raise (KeyError missing_project)) s).
  rewrite (init_project cfg project) by done.
  rewrite bind_run, init_entity. reflexivity.
Qed.

(** X9. With a project in the config and collaborators that accept the
    three calls, the constructor returns after exactly these: the base-class
    constructor with [log_dir] and [flush_secs], the session request for the
    project, the entity of the config ([None] if it has none) and the last
    component of [log_dir], and the push of [log_dir] into the remote
    config.  The registry is then empty. *)
Theorem init_opens_session (log_dir : string) (flush_secs : Z)
    (cfg : gmap string value) (project : value) (st : state) :
  cfg !! "wandb_project" = Some project ->
  let calls :=
    [ SummaryWriter_init log_dir flush_secs;
      wandb_init project (default VNone (cfg !! "wandb_entity"))
        (os.path.split log_dir).2;
      wandb_config_update {[ "log_dir" := VStr log_dir ]} ] in
  accepted collaborators (trace st) calls ->
  __init__ collaborators log_dir flush_secs cfg st =
    (Return tt, {| video_files := []; trace := trace st ++ calls |}).
Proof.
  intros Hproject calls (Hbase & Hsession & Hpush & _).
  rewrite (init_after_base _ _ _ project) by done.
  rewrite bind_run, invoke_run. cbn [with_trace trace]. rewrite Hsession.
  rewrite bind_run, invoke_run. cbn [with_trace trace]. rewrite Hpush.
  unfold set_video_files, with_trace, calls. cbn [trace video_files].
  by rewrite <- !app_assoc.
Qed.

(** X10. When one of the three calls of the constructor raises, the
    exception reaches the caller as it is, the later calls are not made, and
    the registry is not set: a session that could not be opened gets no
    [log_dir] pushed. *)
Theorem init_collaborator_raises (log_dir : string) (flush_secs : Z)
    (cfg : gmap string value) (project : value) (k : nat) (c : call) (e : exn)
    (st : state) :
  cfg !! "wandb_project" = Some project ->
  let calls :=
    [ SummaryWriter_init log_dir flush_secs;
      wandb_init project (default VNone (cfg !! "wandb_entity"))
        (os.path.split log_dir).2;
      wandb_config_update {[ "log_dir" := VStr log_dir ]} ] in
  calls !! k = Some c ->
  accepted collaborators (trace st) (take k calls) ->
  collaborators (trace st ++ take k calls) c = Some e ->
  __init__ collaborators log_dir flush_secs cfg st =
    (Raise e, with_trace st (take (S k) calls)).
Proof.
  intros Hproject calls Hk Hbefore Hraises. subst calls.
  destruct k as [|[|[|k]]]; cbn [lookup list_lookup] in Hk; try discriminate;
    injection Hk as <-; cbn [take] in *.
  - rewrite app_nil_r in Hraises. unfold __init__.
    by rewrite bind_run, invoke_run, Hraises.
  - destruct Hbefore as (Hbase & _).
    rewrite (init_after_base _ _ _ project) by done.
    rewrite bind_run, invoke_run. cbn [with_trace trace]. rewrite Hraises.
    by rewrite with_trace_app.
  - destruct Hbefore as (Hbase & Hsession & _).
    rewrite (init_after_base _ _ _ project) by done.
    rewrite bind_run, invoke_run. cbn [with_trace trace]. rewrite Hsession.
    rewrite bind_run, invoke_run. cbn [with_trace trace video_files].
    rewrite <- app_assoc. cbn [app]. rewrite Hraises.
    unfold with_trace. cbn. by rewrite <- !app_assoc.
Qed.

(** X11. The constructor reads two keys of the config and nothing else: two
    configs with the same project and the same entity, where a missing entity
    counts as [None], make it behave alike. *)
Theorem init_reads_two_keys (log_dir : string) (flush_secs : Z)
    (cfg cfg' : gmap string value) (st : state) :
  cfg !! "wandb_project" = cfg' !! "wandb_project" ->
  default VNone (cfg !! "wandb_entity") = default VNone (cfg' !! "wandb_entity") ->
  __init__ collaborators log_dir flush_secs cfg st =
    __init__ collaborators log_dir flush_secs cfg' st.
Proof.
  intros Hproject Hentity.
  destruct (collaborators (trace st) (SummaryWriter_init log_dir flush_secs))
    as [e|] eqn:Hbase.
  - unfold __init__. by rewrite !bind_run, !invoke_run, Hbase.
  - destruct (cfg' !! "wandb_project") as [project|] eqn:Hproject'.
    + rewrite !(init_after_base _ _ _ project) by done. by rewrite Hentity.
    + unfold __init__. rewrite !bind_run, !invoke_run, Hbase, !bind_run.
      unfold try_except, lift, subscript. by rewrite Hproject, Hproject'.
Qed.

(** The constructor makes at most three calls; a session request among
    them carries the last component of [log_dir] as its name. *)
Lemma init_calls (log_dir : string) (flush_secs : Z) (cfg : gmap string value) :
  makes (fun c => forall project entity name,
           c = wandb_init project entity name ->
           name = (os.path.split log_dir).2)
    3 (__init__ collaborators log_dir flush_secs cfg).
Proof.
  unfold __init__.
  eapply makes_weaken; [|repeat first
    [ eapply makes_bind; [|intros ?]
    | eapply makes_try
    | eapply makes_invoke; intros ???; congruence
    | eapply makes_silent; intros ?; reflexivity ]].
  cbn. lia.
Qed.

(** X12. The run name of the session is the last component of [log_dir]: it
    holds no separator, it is [log_dir] itself when that holds none, and it
    is empty when [log_dir] ends with a separator. *)
Theorem init_run_name (log_dir : string) (flush_secs : Z)
    (cfg : gmap string value) (st : state) (project entity : value)
    (name : string) :
  wandb_init project entity name ∈
    calls_since (length (trace st))
      (__init__ collaborators log_dir flush_secs cfg st).2 ->
  name = (os.path.split log_dir).2 /\
  has_sep name = false /\
  (has_sep log_dir = false -> name = log_dir) /\
  (endswith log_dir "/" = true -> name = EmptyString).
Proof.
  intros Hcall.
  destruct (init_calls log_dir flush_secs cfg st) as (l & Htrace & _ & Hall).
  unfold calls_since in Hcall. rewrite Htrace, drop_app_length in Hcall.
  rewrite Forall_forall in Hall.
  pose proof (Hall _ Hcall project entity name eq_refl) as ->.
  split; [done|]. unfold os.path.split.
  pose proof (cut_tail_no_sep log_dir) as Htail.
  destruct (os.path.cut log_dir) as [head tail] eqn:Hcut. cbn [snd] in *.
  split; [done|]. split.
  - intros Hsep. rewrite (cut_no_sep log_dir Hsep) in Hcut. congruence.
  - intros Hend. destruct (endswith_sep log_dir Hend) as [a ->].
    change (a ++ "/")%string with (a ++ String os.path.sep "")%string in Hcut.
    rewrite cut_app_sep in Hcut by done. congruence.
Qed.

End Constructor.

(** ** Scalars and files *)

Section ScalarsAndFiles.

Variable collaborators : oracle.

(** X13. When the local write raises, [add_scalar] raises the same
    exception and the remote log is not attempted. *)
Theorem add_scalar_local_raises (tag : string) (scalar_value : value)
    (global_step : option Z) (walltime : option spec_float) (new_style : bool)
    (e : exn) (st : state) :
  collaborators (trace st)
    (SummaryWriter_add_scalar tag scalar_value global_step walltime new_style)
    = Some e ->
  add_scalar collaborators tag scalar_value global_step walltime new_style st =
    (Raise e,
     with_trace st
       [SummaryWriter_add_scalar tag scalar_value global_step walltime
          new_style]).
Proof.
  intros Hraises. unfold add_scalar. by rewrite bind_run, invoke_run, Hraises.
Qed.

(** X14. A checkpoint joined to a log directory is uploaded relative to
    that directory: for a directory without trailing separator and a file
    name without separator, [save_model] and [save_file] on the joined path
    call [wandb.save] with the directory as base path. *)
Theorem save_under_directory (dir name : string) (it : Z) (st : state) :
  dir <> EmptyString -> endswith dir "/" = false -> has_sep name = false ->
  let path := os.path.join dir name in
  calls_since (length (trace st)) (save_model collaborators path it st).2 =
    [wandb_save (dir ++ "/" ++ name) dir] /\
  calls_since (length (trace st)) (save_file collaborators path st).2 =
    [wandb_save (dir ++ "/" ++ name) dir].
Proof.
  intros Hdir Hend Hname path.
  destruct (dirname_join dir name Hdir Hend Hname) as [Hjoin Hparent].
  subst path. unfold save_model, save_file.
  rewrite !invoke_run. cbv [snd]. rewrite !calls_since_with_trace.
  by rewrite Hjoin, Hparent.
Qed.

(** X15. A path without separator has no parent: [save_model] and
    [save_file] pass the empty string as base path. *)
Theorem save_bare_name (path : string) (it : Z) (st : state) :
  has_sep path = false ->
  calls_since (length (trace st)) (save_model collaborators path it st).2 =
    [wandb_save path EmptyString] /\
  calls_since (length (trace st)) (save_file collaborators path st).2 =
    [wandb_save path EmptyString].
Proof.
  intros Hsep. unfold save_model, save_file.
  rewrite !invoke_run. cbv [snd]. rewrite !calls_since_with_trace.
  unfold os.path.dirname. by rewrite (cut_no_sep path Hsep).
Qed.

End ScalarsAndFiles.

(** ** More on the video scan *)

Section ScanOutcome.

Variable collaborators : oracle.
Variables step fps : Z.

(** The state in which a scan ends.  If it returns, all the files to upload
    are registered and uploaded.  If it raises, the exception is the one the
    client raised on a call for some file [v]: the files before [v] are
    registered and uploaded, [v] is registered, and the calls for [v] stop
    with the one that raised. *)
Lemma scan_outcome (l : list (string * string)) (st : state) :
  let '(r, st') := for_each l (visit collaborators step fps) st in
  match r with
  | Return _ =>
      st' = {| video_files := video_files st ++ (fresh (video_files st) l).*2;
               trace := trace st ++
                 flat_map (upload_calls step fps) (fresh (video_files st) l) |}
  | Raise e =>
      exists uploaded v rest k c,
        fresh (video_files st) l = uploaded ++ v :: rest /\
        upload_calls step fps v !! k = Some c /\
        collaborators
          (trace st ++ flat_map (upload_calls step fps) uploaded
             ++ take k (upload_calls step fps v)) c = Some e /\
        st' = {| video_files := video_files st ++ (uploaded ++ [v]).*2;
                 trace := trace st ++
                   flat_map (upload_calls step fps) uploaded
                     ++ take (S k) (upload_calls step fps v) |}
  end.
Proof.
  revert st. induction l as [|[root f] l IH]; intros st.
  - cbn. destruct st. by rewrite !app_nil_r.
  - cbn [fresh for_each]. rewrite bind_run.
    destruct (endswith f ".mp4" && negb (bool_decide (f ∈ video_files st)))
      eqn:Hcond; [|rewrite visit_skips by exact Hcond; apply IH].
    pose proof (visit_uploads collaborators step fps (root, f) st Hcond) as Hvisit.
    cbv zeta in Hvisit. cbn [fst snd] in Hvisit. rewrite Hvisit. clear Hvisit.
    destruct (collaborators _ (wandb_Video _ _ _)) as [e|] eqn:Hvideo.
    { exists [], (root, f), (fresh (video_files st ++ [f]) l), 0%nat,
        (wandb_Video (os.path.join root f) fps "mp4").
      split; [done|]. split; [done|]. split; [|done].
      cbn [flat_map take app]. by rewrite app_nil_r. }
    destruct (collaborators _ (wandb_log _ _)) as [e|] eqn:Hlog.
    { exists [], (root, f), (fresh (video_files st ++ [f]) l), 1%nat,
        (wandb_log {[ "Video" := VVideo (os.path.join root f) fps "mp4" ]}
           (Some step)).
      split; [done|]. split; [done|]. split; [|done]. exact Hlog. }
    set (st2 := with_trace _ _). specialize (IH st2).
    destruct (for_each l _ st2) as [[[]|e] st'].
    + rewrite IH. subst st2. cbn [with_trace video_files trace flat_map fmap].
      rewrite fmap_cons. cbn [snd]. f_equal; by rewrite <- !app_assoc.
    + destruct IH as (uploaded & v & rest & k & c & Hfresh & Hk & Hraises & ->).
      exists ((root, f) :: uploaded), v, rest, k, c.
      subst st2. cbn [with_trace video_files trace] in *.
      split; [by rewrite Hfresh|]. split; [done|]. split.
      * cbn [flat_map]. by rewrite <- !app_assoc in Hraises |- *.
      * cbn [flat_map]. rewrite <- !app_comm_cons, fmap_cons. cbn [snd].
        f_equal; by rewrite <- !app_assoc.
Qed.

End ScanOutcome.

Section VideoScanEdges.

Variable collaborators : oracle.

(** X16. A file is registered before it is uploaded.  When a client call
    raises during a scan, the exception reaches the caller, the file at hand
    is in the registry although its upload did not complete, and no later
    scan uploads a file of that name. *)
Theorem add_video_files_failed_upload (fs : filesystem) (log_dir : string)
    (step fps : Z) (e : exn) (st st1 : state) :
  add_video_files collaborators fs log_dir step fps st = (Raise e, st1) ->
  exists uploaded v k c,
    (uploaded ++ [v]) `prefix_of` fresh (video_files st) (found fs log_dir) /\
    upload_calls step fps v !! k = Some c /\
    collaborators
      (trace st ++ flat_map (upload_calls step fps) uploaded
         ++ take k (upload_calls step fps v)) c = Some e /\
    video_files st1 = video_files st ++ uploaded.*2 ++ [v.2] /\
    trace st1 =
      trace st ++ flat_map (upload_calls step fps) uploaded
        ++ take (S k) (upload_calls step fps v) /\
    (forall fs' log_dir' v',
       v' ∈ fresh (video_files st1) (found fs' log_dir') -> v'.2 <> v.2).
Proof.
  intros Hscan. rewrite add_video_files_visits in Hscan.
  pose proof (scan_outcome collaborators step fps (found fs log_dir) st) as Hout.
  rewrite Hscan in Hout.
  destruct Hout as (uploaded & v & rest & k & c & Hfresh & Hk & Hraises & ->).
  exists uploaded, v, k, c. cbn [video_files trace].
  split. { exists rest. by rewrite Hfresh, <- app_assoc. }
  split; [done|]. split; [done|].
  split. { by rewrite fmap_app. }
  split; [done|].
  intros fs' log_dir' v' Hv' Heq. apply fresh_sound in Hv' as (_ & _ & Hnew).
  apply Hnew. rewrite Heq, fmap_app. apply elem_of_app. right.
  apply elem_of_app. right. by left.
Qed.

Lemma video_paths_app (l1 l2 : list call) :
  video_paths (l1 ++ l2) = video_paths l1 ++ video_paths l2.
Proof. apply flat_map_app. Qed.

Lemma video_paths_uploads (step fps : Z) (l : list (string * string)) :
  video_paths (flat_map (upload_calls step fps) l) =
    (fun v => os.path.join v.1 v.2) <$> l.
Proof.
  induction l as [|v l IH]; [done|]. cbn [flat_map].
  rewrite video_paths_app, IH. done.
Qed.

Lemma video_paths_started (step fps : Z) (v : string * string) (k : nat)
    (c : call) :
  upload_calls step fps v !! k = Some c ->
  video_paths (take (S k) (upload_calls step fps v)) = [os.path.join v.1 v.2].
Proof.
  destruct k as [|[|k]]; [done|done|discriminate].
Qed.

(** X17. Where file names hold no separator, as the names that [os.walk]
    yields, the names a scan adds to the registry are the last components of
    the paths it built video objects for, in the same order, whether the scan
    returns or raises. *)
Theorem add_video_files_registers_names (fs : filesystem) (log_dir : string)
    (step fps : Z) (st : state) :
  (forall v, v ∈ found fs log_dir -> has_sep v.2 = false) ->
  let st1 := (add_video_files collaborators fs log_dir step fps st).2 in
  video_files st1 =
    video_files st ++
      ((fun p => (os.path.split p).2) <$>
         video_paths (calls_since (length (trace st)) st1)).
Proof.
  intros Hnames st1. subst st1. rewrite add_video_files_visits.
  pose proof (scan_outcome collaborators step fps (found fs log_dir) st) as Hout.
  assert (Htails : forall l : list (string * string),
            (forall v, v ∈ l -> v ∈ fresh (video_files st) (found fs log_dir)) ->
            (fun p => (os.path.split p).2) <$>
              ((fun v => os.path.join v.1 v.2) <$> l) = l.*2).
  { intros l Hl. rewrite <- list_fmap_compose. apply list_fmap_ext.
    intros i v Hv. cbn. apply split_join, Hnames.
    apply list_elem_of_lookup_2 in Hv. by apply Hl, fresh_sound in Hv as (? & _). }
  destruct (for_each _ _ st) as [[[]|e] st1]; cbn [snd].
  - subst st1. cbn [video_files]. unfold calls_since. cbn [trace].
    rewrite drop_app_length, video_paths_uploads. by rewrite Htails.
  - destruct Hout as (uploaded & v & rest & k & c & Hfresh & Hk & _ & ->).
    cbn [video_files]. unfold calls_since. cbn [trace].
    rewrite drop_app_length, video_paths_app, video_paths_uploads.
    rewrite (video_paths_started _ _ _ _ _ Hk).
    change [os.path.join v.1 v.2] with ((fun v => os.path.join v.1 v.2) <$> [v]).
    rewrite <- fmap_app, Htails; [done|].
    intros v' Hv'. rewrite Hfresh.
    apply elem_of_app in Hv' as [Hv'|Hv']; apply elem_of_app; [by left|right].
    apply list_elem_of_singleton in Hv' as ->. by left.
Qed.

Lemma scan_videos_only (step fps : Z) (l : list (string * string)) (st : state) :
  for_each l (visit collaborators step fps) st =
    for_each (filter (fun v => endswith v.2 ".mp4" = true) l)
      (visit collaborators step fps) st.
Proof.
  revert st. induction l as [|v l IH]; intros st; [done|].
  rewrite filter_cons. cbn [for_each]. rewrite bind_run.
  case_decide as Hext.
  - cbn [for_each]. rewrite bind_run.
    destruct (visit _ _ _ v st) as [[[]|e] st1]; [apply IH|done].
  - rewrite visit_skips; [apply IH|].
    apply not_true_is_false in Hext. by rewrite Hext.
Qed.

(** X18. A scan looks at nothing but the [.mp4] files of the walk:
    sub-directory lists and files with another extension do not matter.  Two
    directories whose walks yield the same [.mp4] files in the same places
    are scanned alike. *)
Theorem add_video_files_videos_only (fs fs' : filesystem)
    (log_dir log_dir' : string) (step fps : Z) (st : state) :
  filter (fun v => endswith v.2 ".mp4" = true) (found fs log_dir) =
    filter (fun v => endswith v.2 ".mp4" = true) (found fs' log_dir') ->
  add_video_files collaborators fs log_dir step fps st =
    add_video_files collaborators fs' log_dir' step fps st.
Proof.
  intros Hsame. rewrite !add_video_files_visits.
  rewrite scan_videos_only, Hsame. symmetry. apply scan_videos_only.
Qed.

(** X19. Scanning one directory and then another, when the first scan
    returns, is scanning once a tree that yields the files of the first
    followed by those of the second. *)
Theorem add_video_files_twice (fs fs' fs'' : filesystem)
    (log_dir log_dir' log_dir'' : string) (step fps : Z) (st st1 : state) :
  add_video_files collaborators fs log_dir step fps st = (Return tt, st1) ->
  found fs'' log_dir'' = found fs log_dir ++ found fs' log_dir' ->
  add_video_files collaborators fs'' log_dir'' step fps st =
    add_video_files collaborators fs' log_dir' step fps st1.
Proof.
  intros Hfirst Hboth. rewrite !add_video_files_visits in *.
  by rewrite Hboth, for_each_app, bind_run, Hfirst.
Qed.

Lemma fresh_first (registered : list string) (l : list (string * string))
    (v : string * string) :
  v ∈ fresh registered l ->
  exists l1 l2, l = l1 ++ v :: l2 /\ v.2 ∉ l1.*2.
Proof.
  revert registered. induction l as [|[root f] l IH]; intros registered Hv.
  - by apply elem_of_nil in Hv.
  - cbn [fresh] in Hv.
    destruct (endswith f ".mp4" && negb (bool_decide (f ∈ registered)))
      eqn:Hcond.
    + apply elem_of_cons in Hv as [-> | Hv].
      * exists [], l. split; [done|]. apply not_elem_of_nil.
      * pose proof (fresh_sound _ _ _ Hv) as (_ & _ & Hnew).
        destruct (IH _ Hv) as (l1 & l2 & -> & Hfirst).
        exists ((root, f) :: l1), l2. split; [done|].
        rewrite fmap_cons. cbn [snd]. intros Hin.
        apply elem_of_cons in Hin as [Heq | Hin]; [|done].
        apply Hnew, elem_of_app. right. rewrite Heq. by left.
    + destruct (IH _ Hv) as (l1 & l2 & -> & Hfirst).
      destruct (fresh_sound _ _ _ Hv) as (_ & Hext & Hnew).
      exists ((root, f) :: l1), l2. split; [done|].
      rewrite fmap_cons. cbn [snd]. intros Hin.
      apply elem_of_cons in Hin as [Heq | Hin]; [|done].
      rewrite <- Heq, Hext in Hcond. cbn [andb] in Hcond.
      apply negb_false_iff, bool_decide_eq_true in Hcond. done.
Qed.

(** X20. Of several discovered files with one name, the scan uploads the
    first in the order of the walk: every video path a returning scan builds
    is that of a discovered [.mp4] file whose name is not registered and does
    not occur earlier in the walk. *)
Theorem add_video_files_first_of_name (fs : filesystem) (log_dir : string)
    (step fps : Z) (st st1 : state) (p : string) :
  add_video_files collaborators fs log_dir step fps st = (Return tt, st1) ->
  p ∈ video_paths (calls_since (length (trace st)) st1) ->
  exists l1 v l2,
    found fs log_dir = l1 ++ v :: l2 /\
    p = os.path.join v.1 v.2 /\
    endswith v.2 ".mp4" = true /\
    (v.2 ∉ video_files st) /\
    (v.2 ∉ l1.*2).
Proof.
  intros Hscan Hp. rewrite add_video_files_visits in Hscan.
  pose proof (scan_outcome collaborators step fps (found fs log_dir) st) as Hout.
  rewrite Hscan in Hout. subst st1.
  unfold calls_since in Hp. cbn [trace] in Hp.
  rewrite drop_app_length, video_paths_uploads in Hp.
  apply list_elem_of_fmap in Hp as (v & -> & Hv).
  destruct (fresh_sound _ _ _ Hv) as (_ & Hext & Hnew).
  destruct (fresh_first _ _ _ Hv) as (l1 & l2 & Hfound & Hfirst).
  by exists l1, v, l2.
Qed.

End VideoScanEdges.

(** ** The further properties at concrete inputs *)

Lemma store_config_without_policy_witness :
  store_config reliable env_cfg_both ∅ blank =
    (Raise (KeyError "policy"),
     with_trace blank [wandb_config_update {[ "runner_cfg" := VDict ∅ ]}]).
Proof.
  apply (store_config_without_policy reliable env_cfg_both ∅ blank);
    reflexivity.
Defined.

Lemma store_config_without_algorithm_witness :
  store_config reliable env_cfg_both train_cfg_policy_only blank =
    (Raise (KeyError "algorithm"),
     with_trace blank
       [ wandb_config_update {[ "runner_cfg" := VDict train_cfg_policy_only ]};
         wandb_config_update
           {[ "policy_cfg" := VDict {[ "class_name" := VStr "ActorCritic" ]} ]} ]).
Proof.
  apply (store_config_without_algorithm reliable env_cfg_both
           train_cfg_policy_only
           (VDict {[ "class_name" := VStr "ActorCritic" ]}) blank).
  - vm_compute. reflexivity.
  - vm_compute. reflexivity.
  - cbn. repeat split.
Defined.

Lemma store_config_train_push_raises_witness :
  store_config
    (raises_on "alg_cfg" (OtherException "CommError" "connection reset"))
    env_cfg_both train_cfg_full blank =
    (Raise (OtherException "CommError" "connection reset"),
     with_trace blank
       (take 3
          (train_pushes train_cfg_full
             (VDict {[ "class_name" := VStr "ActorCritic" ]})
             (VDict {[ "class_name" := VStr "PPO" ]})))).
Proof.
  apply (store_config_train_push_raises
           (raises_on "alg_cfg" (OtherException "CommError" "connection reset"))
           env_cfg_both train_cfg_full
           (VDict {[ "class_name" := VStr "ActorCritic" ]})
           (VDict {[ "class_name" := VStr "PPO" ]}) 2
           (wandb_config_update
              {[ "alg_cfg" := VDict {[ "class_name" := VStr "PPO" ]} ]})).
  - vm_compute. reflexivity.
  - vm_compute. reflexivity.
  - reflexivity.
  - cbn. repeat split; vm_compute; reflexivity.
  - vm_compute. reflexivity.
Defined.

Lemma store_config_plain_dict_witness :
  store_config reliable env_cfg_plain_dict train_cfg_full blank =
    (Raise (TypeError "asdict() should be called on dataclass instances"),
     with_trace blank
       (train_pushes train_cfg_full
          (VDict {[ "class_name" := VStr "ActorCritic" ]})
          (VDict {[ "class_name" := VStr "PPO" ]}))).
Proof.
  apply (store_config_plain_dict reliable env_cfg_plain_dict train_cfg_full
           (VDict {[ "class_name" := VStr "ActorCritic" ]})
           (VDict {[ "class_name" := VStr "PPO" ]}) blank).
  - vm_compute. reflexivity.
  - vm_compute. reflexivity.
  - cbn. repeat split.
  - reflexivity.
  - reflexivity.
Defined.

Lemma store_config_fallback_push_raises_witness :
  store_config
    (raises_on "env_cfg" (OtherException "CommError" "connection reset"))
    env_cfg_dataclass train_cfg_full blank =
    (Raise (OtherException "CommError" "connection reset"),
     with_trace blank
       (train_pushes train_cfg_full
          (VDict {[ "class_name" := VStr "ActorCritic" ]})
          (VDict {[ "class_name" := VStr "PPO" ]})
        ++ [env_push (VDict {[ "num_envs" := VInt 4096 ]})])).
Proof.
  apply (store_config_fallback_push_raises
           (raises_on "env_cfg" (OtherException "CommError" "connection reset"))
           env_cfg_dataclass train_cfg_full
           (VDict {[ "class_name" := VStr "ActorCritic" ]})
           (VDict {[ "class_name" := VStr "PPO" ]})
           (VDict {[ "num_envs" := VInt 4096 ]})
           (AttributeError "object has no attribute 'to_dict'")).
  - vm_compute. reflexivity.
  - vm_compute. reflexivity.
  - cbn. repeat split; vm_compute; reflexivity.
  - reflexivity.
  - reflexivity.
  - reflexivity.
  - vm_compute. reflexivity.
Defined.

Lemma store_config_guarded_push_witness :
  let made :=
    train_pushes train_cfg_full
      (VDict {[ "class_name" := VStr "ActorCritic" ]})
      (VDict {[ "class_name" := VStr "PPO" ]})
    ++ [env_push (VDict {[ "num_envs" := VInt 4096 ]})] in
  store_config fails_once env_cfg_both train_cfg_full blank =
    match asdict env_cfg_both with
    | Raise e' => (Raise e', with_trace blank made)
    | Return d' =>
        (match fails_once (trace blank ++ made) (env_push d') with
         | Some e2 => Raise e2
         | None => Return tt
         end, with_trace blank (made ++ [env_push d']))
    end.
Proof.
  apply (store_config_guarded_push fails_once env_cfg_both train_cfg_full
           (VDict {[ "class_name" := VStr "ActorCritic" ]})
           (VDict {[ "class_name" := VStr "PPO" ]})
           (VDict {[ "num_envs" := VInt 4096 ]})
           (OtherException "CommError" "connection reset") blank).
  - vm_compute. reflexivity.
  - vm_compute. reflexivity.
  - cbn. repeat split; vm_compute; reflexivity.
  - reflexivity.
  - vm_compute. reflexivity.
  - reflexivity.
Defined.

Lemma store_config_interrupted_push_witness :
  store_config (raises_on "env_cfg" (NonException "KeyboardInterrupt"))
    env_cfg_both train_cfg_full blank =
    (Raise (NonException "KeyboardInterrupt"),
     with_trace blank
       (train_pushes train_cfg_full
          (VDict {[ "class_name" := VStr "ActorCritic" ]})
          (VDict {[ "class_name" := VStr "PPO" ]})
        ++ [env_push (VDict {[ "num_envs" := VInt 4096 ]})])).
Proof.
  apply (store_config_interrupted_push
           (raises_on "env_cfg" (NonException "KeyboardInterrupt"))
           env_cfg_both train_cfg_full
           (VDict {[ "class_name" := VStr "ActorCritic" ]})
           (VDict {[ "class_name" := VStr "PPO" ]})
           (VDict {[ "num_envs" := VInt 4096 ]})
           (NonException "KeyboardInterrupt") blank).
  - vm_compute. reflexivity.
  - vm_compute. reflexivity.
  - cbn. repeat split; vm_compute; reflexivity.
  - reflexivity.
  - vm_compute. reflexivity.
  - reflexivity.
Defined.

Lemma init_opens_session_witness :
  let calls :=
    [ SummaryWriter_init "logs/run1" 10;
      wandb_init (VStr "legged_gym")
        (default VNone (cfg_with_entity !! "wandb_entity"))
        (os.path.split "logs/run1").2;
      wandb_config_update {[ "log_dir" := VStr "logs/run1" ]} ] in
  __init__ reliable "logs/run1" 10 cfg_with_entity blank =
    (Return tt, {| video_files := []; trace := trace blank ++ calls |}).
Proof.
  apply (init_opens_session reliable "logs/run1" 10 cfg_with_entity
           (VStr "legged_gym") blank).
  - vm_compute. reflexivity.
  - cbn. repeat split.
Defined.

Lemma init_collaborator_raises_witness :
  let calls :=
    [ SummaryWriter_init "logs/run1" 10;
      wandb_init (VStr "legged_gym")
        (default VNone (cfg_with_entity !! "wandb_entity"))
        (os.path.split "logs/run1").2;
      wandb_config_update {[ "log_dir" := VStr "logs/run1" ]} ] in
  __init__ session_refused "logs/run1" 10 cfg_with_entity blank =
    (Raise (OtherException "UsageError" "api_key not configured"),
     with_trace blank (take 2 calls)).
Proof.
  apply (init_collaborator_raises session_refused "logs/run1" 10
           cfg_with_entity (VStr "legged_gym") 1
           (wandb_init (VStr "legged_gym")
              (default VNone (cfg_with_entity !! "wandb_entity"))
              (os.path.split "logs/run1").2)).
  - vm_compute. reflexivity.
  - reflexivity.
  - cbn. repeat split.
  - reflexivity.
Defined.

Lemma init_reads_two_keys_witness :
  __init__ reliable "logs/run1" 10 cfg_project_only blank =
    __init__ reliable "logs/run1" 10
      (<[ "wandb_entity" := VNone ]> (<[ "seed" := VInt 1 ]> cfg_project_only))
      blank.
Proof.
  apply (init_reads_two_keys reliable "logs/run1" 10 cfg_project_only
           (<[ "wandb_entity" := VNone ]> (<[ "seed" := VInt 1 ]> cfg_project_only))
           blank).
  - vm_compute. reflexivity.
  - vm_compute. reflexivity.
Defined.

Lemma init_run_name_witness :
  EmptyString = (os.path.split "logs/run1/").2 /\
  has_sep EmptyString = false /\
  (has_sep "logs/run1/" = false -> EmptyString = "logs/run1/") /\
  (endswith "logs/run1/" "/" = true -> EmptyString = EmptyString).
Proof.
  apply (init_run_name reliable "logs/run1/" 10 cfg_project_only blank
           (VStr "legged_gym") VNone EmptyString).
  vm_compute. constructor 2. constructor 1.
Defined.

Lemma add_scalar_local_raises_witness :
  add_scalar disk_full "loss" (VFloat one_and_a_half) (Some 10) None false blank =
    (Raise (OtherException "OSError" "No space left on device"),
     with_trace blank
       [SummaryWriter_add_scalar "loss" (VFloat one_and_a_half) (Some 10) None
          false]).
Proof.
  apply (add_scalar_local_raises disk_full "loss" (VFloat one_and_a_half)
           (Some 10) None false
           (OtherException "OSError" "No space left on device") blank).
  reflexivity.
Defined.

Lemma save_under_directory_witness :
  let path := os.path.join "logs/run1" "model_100.pt" in
  calls_since (length (trace blank)) (save_model reliable path 100 blank).2 =
    [wandb_save ("logs/run1" ++ "/" ++ "model_100.pt") "logs/run1"] /\
  calls_since (length (trace blank)) (save_file reliable path blank).2 =
    [wandb_save ("logs/run1" ++ "/" ++ "model_100.pt") "logs/run1"].
Proof.
  apply (save_under_directory reliable "logs/run1" "model_100.pt" 100 blank).
  - discriminate.
  - reflexivity.
  - reflexivity.
Defined.

Lemma save_bare_name_witness :
  calls_since (length (trace blank))
    (save_model reliable "model_100.pt" 100 blank).2 =
    [wandb_save "model_100.pt" EmptyString] /\
  calls_since (length (trace blank)) (save_file reliable "model_100.pt" blank).2 =
    [wandb_save "model_100.pt" EmptyString].
Proof.
  apply (save_bare_name reliable "model_100.pt" 100 blank). reflexivity.
Defined.

Lemma add_video_files_failed_upload_witness :
  let st := blank in
  let st1 :=
    {| video_files := ["a.mp4"; "b.mp4"];
       trace := upload_calls 100 30 ("videos", "a.mp4")
                  ++ [wandb_Video "videos/old/b.mp4" 30 "mp4"] |} in
  exists uploaded v k c,
    (uploaded ++ [v]) `prefix_of` fresh (video_files st) (found fs_videos "videos") /\
    upload_calls 100 30 v !! k = Some c /\
    unreadable "videos/old/b.mp4"
      (trace st ++ flat_map (upload_calls 100 30) uploaded
         ++ take k (upload_calls 100 30 v)) c =
      Some (OtherException "ValueError" "video file is not readable") /\
    video_files st1 = video_files st ++ uploaded.*2 ++ [v.2] /\
    trace st1 =
      trace st ++ flat_map (upload_calls 100 30) uploaded
        ++ take (S k) (upload_calls 100 30 v) /\
    (forall fs' log_dir' v',
       v' ∈ fresh (video_files st1) (found fs' log_dir') -> v'.2 <> v.2).
Proof.
  apply (add_video_files_failed_upload (unreadable "videos/old/b.mp4")
           fs_videos "videos" 100 30
           (OtherException "ValueError" "video file is not readable") blank).
  vm_compute. reflexivity.
Defined.

Lemma add_video_files_registers_names_witness :
  let st1 := (add_video_files reliable fs_videos "videos" 100 30 blank).2 in
  video_files st1 =
    video_files blank ++
      ((fun p => (os.path.split p).2) <$>
         video_paths (calls_since (length (trace blank)) st1)).
Proof.
  apply (add_video_files_registers_names reliable fs_videos "videos" 100 30
           blank).
  apply Forall_forall. vm_compute. repeat constructor.
Defined.

Lemma add_video_files_videos_only_witness :
  add_video_files reliable fs_videos "videos" 100 30 blank =
    add_video_files reliable fs_videos_bare "videos" 100 30 blank.
Proof.
  apply (add_video_files_videos_only reliable fs_videos fs_videos_bare
           "videos" "videos" 100 30 blank).
  vm_compute. reflexivity.
Defined.

Lemma add_video_files_twice_witness :
  add_video_files reliable fs_both "all" 100 30 blank =
    add_video_files reliable fs_elsewhere "other" 100 30
      {| video_files := ["a.mp4"; "b.mp4"];
         trace := flat_map (upload_calls 100 30)
                    [("videos", "a.mp4"); ("videos/old", "b.mp4")] |}.
Proof.
  apply (add_video_files_twice reliable fs_videos fs_elsewhere fs_both
           "videos" "other" "all" 100 30 blank).
  - vm_compute. reflexivity.
  - vm_compute. reflexivity.
Defined.

Lemma add_video_files_first_of_name_witness :
  exists l1 v l2,
    found fs_videos "videos" = l1 ++ v :: l2 /\
    "videos/a.mp4" = os.path.join v.1 v.2 /\
    endswith v.2 ".mp4" = true /\
    (v.2 ∉ video_files blank) /\
    (v.2 ∉ l1.*2).
Proof.
  apply (add_video_files_first_of_name reliable fs_videos "videos" 100 30 blank
           {| video_files := ["a.mp4"; "b.mp4"];
              trace := flat_map (upload_calls 100 30)
                         [("videos", "a.mp4"); ("videos/old", "b.mp4")] |}).
  - vm_compute. reflexivity.
  - vm_compute. constructor 1.
Defined.
